(** * Order analytics aggregation of the admin console (src/pages/Analytics.tsx)

    A shallow embedding of [fetchAnalytics] and of the part of the JavaScript
    runtime it relies on, followed by the properties of the report it builds.

    Modelling conventions.
    - A JavaScript number that holds a money amount, a quantity or a counter
      is a [Z]: the arithmetic of the source ([+], [*], [-]) is exact on
      integral doubles below 2^53, which is the range the model covers.  The
      one division of the source produces an [option Q], [None] standing for
      the non-finite results (NaN, Infinity) of a division by zero.
    - A [Date] is its time value, a [Z] number of milliseconds since the
      epoch.  The viewer's time zone has a constant offset, so that moving a
      date back by [n] calendar days subtracts [n] times [msPerDay].
    - An object literal used as a dictionary is the list of its own
      properties in creation order; [Object_entries] and [Object_values]
      enumerate it the way the language prescribes (array indices first, in
      ascending numeric order, then the other keys in creation order).  Keys
      range over strings that do not name a member inherited from
      [Object.prototype].
    - [toLocaleDateString] and the parser behind [new Date(string)] are
      platform functions: they are parameters of the model. *)

From Stdlib Require Import String Ascii ZArith QArith List Bool Lia.
From Stdlib Require Import Permutation Sorted DecimalString.
Import ListNotations.

Local Open Scope string_scope.
Local Open Scope list_scope.
Local Open Scope Z_scope.

(** ** JavaScript objects used as dictionaries *)

Module JS.

Definition obj (V : Type) : Type := list (string * V).

Fixpoint get {V} (o : obj V) (k : string) : option V :=
  match o with
  | [] => None
  | (k', v) :: o' => if String.eqb k' k then Some v else get o' k
  end.

(** [o[k] = v]: overwrites an own property in place, or creates it last. *)
Fixpoint set {V} (o : obj V) (k : string) (v : V) : obj V :=
  match o with
  | [] => [(k, v)]
  | (k', v') :: o' =>
      if String.eqb k' k then (k', v) :: o' else (k', v') :: set o' k v
  end.

(** [o[k].f op= e]: an in-place update of the value stored under [k]. *)
Fixpoint modify {V} (o : obj V) (k : string) (f : V -> V) : obj V :=
  match o with
  | [] => []
  | (k', v') :: o' =>
      if String.eqb k' k then (k', f v') :: o' else (k', v') :: modify o' k f
  end.

Definition keys {V} (o : obj V) : list string := map fst o.

(** *** Array indices among property keys *)

Definition is_digit (c : ascii) : bool :=
  let n := N_of_ascii c in ((48 <=? n) && (n <=? 57))%N.

Fixpoint digits_value (s : string) (acc : N) : option N :=
  match s with
  | EmptyString => Some acc
  | String c s' =>
      if is_digit c
      then digits_value s' (10 * acc + (N_of_ascii c - 48))%N
      else None
  end.

(** A canonical numeric string below 2^32 - 1. *)
Definition array_index (k : string) : option N :=
  match k with
  | EmptyString => None
  | String c rest =>
      if Ascii.eqb c "0"%char
      then match rest with EmptyString => Some 0%N | _ => None end
      else match digits_value k 0%N with
           | Some n => if (n <? 4294967295)%N then Some n else None
           | None => None
           end
  end.

Definition is_index (k : string) : bool :=
  match array_index k with Some _ => true | None => false end.

Definition index_of (k : string) : N :=
  match array_index k with Some n => n | None => 0%N end.

Fixpoint insert_index {V} (e : string * V) (l : list (string * V)) :=
  match l with
  | [] => [e]
  | e' :: l' =>
      if (index_of (fst e) <=? index_of (fst e'))%N
      then e :: l
      else e' :: insert_index e l'
  end.

Definition sort_index {V} (l : list (string * V)) : list (string * V) :=
  fold_right insert_index [] l.

(** Own enumerable properties in the order of [OrdinaryOwnPropertyKeys]. *)
Definition Object_entries {V} (o : obj V) : list (string * V) :=
  sort_index (filter (fun e => is_index (fst e)) o)
  ++ filter (fun e => negb (is_index (fst e))) o.

Definition Object_values {V} (o : obj V) : list V :=
  map snd (Object_entries o).

(** *** Arrays *)

(** [Array.prototype.sort] is stable; a comparator result that is NaN counts
    as [0], which the callers below encode themselves.  For a comparator that
    is not a consistent ordering the language leaves the resulting order to
    the implementation: the insertion sort below is then one admissible
    behaviour, and no property of the order is derived from it. *)
Fixpoint sort_insert {A} (cmp : A -> A -> Z) (x : A) (l : list A) : list A :=
  match l with
  | [] => [x]
  | y :: l' => if cmp x y <=? 0 then x :: l else y :: sort_insert cmp x l'
  end.

Definition sort {A} (cmp : A -> A -> Z) (l : list A) : list A :=
  fold_right (sort_insert cmp) [] l.

(** [a.slice(0, n)] *)
Definition slice_first {A} (n : nat) (l : list A) : list A := firstn n l.

(** [a.slice(-n)] *)
Definition slice_last {A} (n : nat) (l : list A) : list A :=
  skipn (length l - n) l.

(** [v || d] on a string: the empty string is falsy. *)
Definition or_string (v : option string) (d : string) : string :=
  match v with
  | Some s => if String.eqb s "" then d else s
  | None => d
  end.

(** [v || 0] on a number: a missing value and [0] both give [0]. *)
Definition or_zero (v : option Z) : Z :=
  match v with Some z => z | None => 0 end.

(** [a / b] on numbers; [None] is a non-finite result. *)
Definition div (a b : Z) : option Q :=
  if b =? 0 then None else Some (inject_Z a / inject_Z b)%Q.

End JS.

(** ** Documents of the snapshot *)

Definition msPerDay : Z := 86400000.

Module Item.
Record t : Type := mk
  { productId : string; name : string; price : Z; quantity : Z }.
End Item.

Module Order.
Record t : Type := mk
  { createdAt : option Z;          (* a Timestamp, as the time value of toDate() *)
    totalAmount : option Z;
    status : option string;
    products : option (list Item.t) }.
End Order.

Module Product.
Record t : Type := mk { id : string; categoryId : string }.
End Product.

Module Category.
Record t : Type := mk { id : string; name : string }.
End Category.

Record Snapshot : Type := mkSnapshot
  { orders : list Order.t;
    products : list Product.t;
    categories : list Category.t }.

(** ** The report ([AnalyticsData]) *)

Module TopProduct.
Record t : Type := mk { name : string; sales : Z; revenue : Z }.
End TopProduct.

Module CategoryRevenue.
Record t : Type := mk { name : string; value : Z }.
End CategoryRevenue.

Module DaySales.
Record t : Type := mk { date : string; sales : Z; revenue : Z }.
End DaySales.

Module StatusCount.
Record t : Type := mk { status : string; count : Z }.
End StatusCount.

Record AnalyticsData : Type := mkAnalyticsData
  { totalRevenue : Z;
    totalOrders : Z;
    averageOrderValue : option Q;
    topProducts : list TopProduct.t;
    revenueByCategory : list CategoryRevenue.t;
    salesOverTime : list DaySales.t;
    ordersByStatus : list StatusCount.t }.

(** ** The accumulators of one run *)

Module DayAcc.
Record t : Type := mk { sales : Z; revenue : Z }.
End DayAcc.

(** The objects a run can write to: the three arrays of the snapshot and the
    four dictionaries the function allocates. *)
Record Heap : Type := mkHeap
  { snapshot : Snapshot;
    productSales : JS.obj TopProduct.t;
    categoryRevenue : JS.obj Z;
    salesByDate : JS.obj DayAcc.t;
    statusCount : JS.obj Z }.

Definition set_productSales (o : JS.obj TopProduct.t) (h : Heap) : Heap :=
  mkHeap (snapshot h) o (categoryRevenue h) (salesByDate h) (statusCount h).

Definition set_categoryRevenue (o : JS.obj Z) (h : Heap) : Heap :=
  mkHeap (snapshot h) (productSales h) o (salesByDate h) (statusCount h).

Definition set_salesByDate (o : JS.obj DayAcc.t) (h : Heap) : Heap :=
  mkHeap (snapshot h) (productSales h) (categoryRevenue h) o (statusCount h).

Definition set_statusCount (o : JS.obj Z) (h : Heap) : Heap :=
  mkHeap (snapshot h) (productSales h) (categoryRevenue h) (salesByDate h) o.

(** [a.forEach(f)], the callback threading the heap. *)
Definition forEach {A} (a : list A) (f : A -> Heap -> Heap) (h : Heap) : Heap :=
  fold_left (fun h x => f x h) a h.

(** [order.products?.forEach(f)] *)
Definition forEachItem (order : Order.t) (f : Item.t -> Heap -> Heap)
  (h : Heap) : Heap :=
  match Order.products order with
  | Some items => forEach items f h
  | None => h
  end.

Definition itemRevenue (item : Item.t) : Z :=
  Item.price item * Item.quantity item.

(** ** fetchAnalytics *)

Section Analytics.

(** [d.toLocaleDateString()] of the date with time value [t]. *)
Variable toLocaleDateString : Z -> string.

(** The time value of [new Date(s)]; [None] is NaN (an invalid date). *)
Variable Date_parse : string -> option Z.

(** [cutoffDate.setDate(cutoffDate.getDate() - daysAgo)] on [new Date()]. *)
Definition cutoffDate (now daysAgo : Z) : Z := now - daysAgo * msPerDay.

(** [order.createdAt?.toDate?.() || new Date(0)] *)
Definition orderDate (order : Order.t) : Z :=
  match Order.createdAt order with
  | Some t => t
  | None => 0
  end.

Definition filteredOrders (now daysAgo : Z) (orders : list Order.t)
  : list Order.t :=
  filter (fun order => cutoffDate now daysAgo <=? orderDate order) orders.

Definition productSales_item (item : Item.t) (h : Heap) : Heap :=
  let k := Item.productId item in
  let h1 :=
    match JS.get (productSales h) k with
    | None =>
        set_productSales
          (JS.set (productSales h) k (TopProduct.mk (Item.name item) 0 0)) h
    | Some _ => h
    end in
  let h2 :=
    set_productSales
      (JS.modify (productSales h1) k
         (fun e => TopProduct.mk (TopProduct.name e)
                     (TopProduct.sales e + Item.quantity item)
                     (TopProduct.revenue e))) h1 in
  set_productSales
    (JS.modify (productSales h2) k
       (fun e => TopProduct.mk (TopProduct.name e) (TopProduct.sales e)
                   (TopProduct.revenue e + itemRevenue item))) h2.

Definition categoryRevenue_item (item : Item.t) (h : Heap) : Heap :=
  match find (fun p => String.eqb (Product.id p) (Item.productId item))
             (products (snapshot h)) with
  | Some product =>
      let category :=
        find (fun c => String.eqb (Category.id c) (Product.categoryId product))
             (categories (snapshot h)) in
      let categoryName :=
        JS.or_string (option_map Category.name category) "Unknown" in
      set_categoryRevenue
        (JS.set (categoryRevenue h) categoryName
           (JS.or_zero (JS.get (categoryRevenue h) categoryName)
            + itemRevenue item)) h
  | None => h
  end.

Definition dateKey (order : Order.t) : string :=
  JS.or_string (option_map toLocaleDateString (Order.createdAt order))
    "Unknown".

Definition salesByDate_order (order : Order.t) (h : Heap) : Heap :=
  let date := dateKey order in
  let h1 :=
    match JS.get (salesByDate h) date with
    | None => set_salesByDate (JS.set (salesByDate h) date (DayAcc.mk 0 0)) h
    | Some _ => h
    end in
  let h2 :=
    set_salesByDate
      (JS.modify (salesByDate h1) date
         (fun e => DayAcc.mk (DayAcc.sales e + 1) (DayAcc.revenue e))) h1 in
  set_salesByDate
    (JS.modify (salesByDate h2) date
       (fun e => DayAcc.mk (DayAcc.sales e)
                   (DayAcc.revenue e + JS.or_zero (Order.totalAmount order))))
    h2.

Definition statusKey (order : Order.t) : string :=
  JS.or_string (Order.status order) "Unknown".

Definition statusCount_order (order : Order.t) (h : Heap) : Heap :=
  let status := statusKey order in
  set_statusCount
    (JS.set (statusCount h) status
       (JS.or_zero (JS.get (statusCount h) status) + 1)) h.

(** [(a, b) => b.revenue - a.revenue] *)
Definition byRevenue (a b : TopProduct.t) : Z :=
  TopProduct.revenue b - TopProduct.revenue a.

(** [(a, b) => new Date(a.date).getTime() - new Date(b.date).getTime()];
    a difference that involves NaN is NaN, which the sort reads as [0]. *)
Definition byDate (a b : DaySales.t) : Z :=
  match Date_parse (DaySales.date a), Date_parse (DaySales.date b) with
  | Some ta, Some tb => ta - tb
  | _, _ => 0
  end.

(** The body of [fetchAnalytics] from the three arrays on, with the clock
    reading [now] of [new Date()] and [daysAgo = parseInt(timeRange)].  The
    result is the value handed to [setAnalytics] and the snapshot arrays as
    the run leaves them. *)
Definition fetchAnalytics (now daysAgo : Z) (s : Snapshot)
  : AnalyticsData * Snapshot :=
  let h0 := mkHeap s [] [] [] [] in
  let filtered := filteredOrders now daysAgo (orders (snapshot h0)) in
  let totalRevenue :=
    fold_left (fun sum order => sum + JS.or_zero (Order.totalAmount order))
      filtered 0 in
  let totalOrders := Z.of_nat (length filtered) in
  let averageOrderValue :=
    if 0 <? totalOrders then JS.div totalRevenue totalOrders else Some 0%Q in
  let h1 :=
    forEach filtered (fun order => forEachItem order productSales_item) h0 in
  let topProducts :=
    JS.slice_first 5 (JS.sort byRevenue (JS.Object_values (productSales h1))) in
  let h2 :=
    forEach filtered (fun order => forEachItem order categoryRevenue_item) h1 in
  let revenueByCategory :=
    map (fun e => CategoryRevenue.mk (fst e) (snd e))
      (JS.Object_entries (categoryRevenue h2)) in
  let h3 := forEach filtered salesByDate_order h2 in
  let salesOverTime :=
    JS.slice_last 14
      (JS.sort byDate
         (map (fun e => DaySales.mk (fst e) (DayAcc.sales (snd e))
                          (DayAcc.revenue (snd e)))
            (JS.Object_entries (salesByDate h3)))) in
  let h4 := forEach filtered statusCount_order h3 in
  let ordersByStatus :=
    map (fun e => StatusCount.mk (fst e) (snd e))
      (JS.Object_entries (statusCount h4)) in
  (mkAnalyticsData totalRevenue totalOrders averageOrderValue topProducts
     revenueByCategory salesOverTime ordersByStatus,
   snapshot h4).

Definition report (now daysAgo : Z) (s : Snapshot) : AnalyticsData :=
  fst (fetchAnalytics now daysAgo s).

End Analytics.

(** ** The loops as folds over one dictionary

    Each loop of [fetchAnalytics] writes to a single dictionary; the
    functions below are the effect of one iteration on that dictionary, as a
    function of the dictionary alone.  [run_productSales] and its
    siblings relate them to the heap-threading loops above. *)

Definition allItems (filtered : list Order.t) : list Item.t :=
  flat_map (fun order => match Order.products order with
                         | Some items => items
                         | None => []
                         end) filtered.

Definition sumZ (l : list Z) : Z := fold_right Z.add 0 l.

(** The step of a group-by accumulator: the group of [key x] is created from
    [init x] when it is new, and updated by [upd x]. *)
Definition group_step {X V} (key : X -> string) (init : X -> V)
  (upd : X -> V -> V) (o : JS.obj V) (x : X) : JS.obj V :=
  JS.set o (key x)
    (upd x (match JS.get o (key x) with Some v => v | None => init x end)).

Definition productSales_step : JS.obj TopProduct.t -> Item.t -> JS.obj TopProduct.t :=
  group_step Item.productId
    (fun item => TopProduct.mk (Item.name item) 0 0)
    (fun item e => TopProduct.mk (TopProduct.name e)
                     (TopProduct.sales e + Item.quantity item)
                     (TopProduct.revenue e + itemRevenue item)).

(** The category name an item's revenue is booked under; [None] when the
    item is skipped because no product has its [productId]. *)
Definition categoryName (s : Snapshot) (item : Item.t) : option string :=
  match find (fun p => String.eqb (Product.id p) (Item.productId item))
             (products s) with
  | Some product =>
      Some (JS.or_string
              (option_map Category.name
                 (find (fun c => String.eqb (Category.id c)
                                   (Product.categoryId product))
                    (categories s)))
              "Unknown")
  | None => None
  end.

(** The items that resolve to a product, each with its category name. *)
Definition booked (s : Snapshot) (items : list Item.t) : list (string * Z) :=
  flat_map (fun item => match categoryName s item with
                        | Some n => [(n, itemRevenue item)]
                        | None => []
                        end) items.

Definition count_step {X} (key : X -> string) (val : X -> Z)
  : JS.obj Z -> X -> JS.obj Z :=
  group_step key (fun _ => 0) (fun x v => v + val x).

Definition categoryRevenue_step : JS.obj Z -> string * Z -> JS.obj Z :=
  count_step fst snd.

Definition statusCount_step : JS.obj Z -> Order.t -> JS.obj Z :=
  count_step statusKey (fun _ => 1).

Definition salesByDate_step (toLocaleDateString : Z -> string)
  : JS.obj DayAcc.t -> Order.t -> JS.obj DayAcc.t :=
  group_step (dateKey toLocaleDateString)
    (fun _ => DayAcc.mk 0 0)
    (fun order e => DayAcc.mk (DayAcc.sales e + 1)
                      (DayAcc.revenue e + JS.or_zero (Order.totalAmount order))).

(** The fold that gives the group of one key its value: the updates of the
    elements of that key, in order. *)
Definition regroup {X V} (init : X -> V) (upd : X -> V -> V)
  (ov : option V) (x : X) : option V :=
  Some (upd x (match ov with Some v => v | None => init x end)).

(** One iteration of the category loop, on the dictionary alone. *)
Definition categoryRevenue_book (s : Snapshot) (o : JS.obj Z) (item : Item.t)
  : JS.obj Z :=
  match categoryName s item with
  | Some n => categoryRevenue_step o (n, itemRevenue item)
  | None => o
  end.

(** The dictionaries a run ends with, for the orders the window admits. *)
Definition productSales_of (filtered : list Order.t) : JS.obj TopProduct.t :=
  fold_left productSales_step (allItems filtered) [].

Definition categoryRevenue_of (s : Snapshot) (filtered : list Order.t)
  : JS.obj Z :=
  fold_left categoryRevenue_step (booked s (allItems filtered)) [].

Definition salesByDate_of (fmt : Z -> string) (filtered : list Order.t)
  : JS.obj DayAcc.t :=
  fold_left (salesByDate_step fmt) filtered [].

Definition statusCount_of (filtered : list Order.t) : JS.obj Z :=
  fold_left statusCount_step filtered [].

(** A comparator that subtracts a numeric key. *)
Definition byKey {A} (key : A -> Z) (a b : A) : Z := key a - key b.

(** [([date, data]) => ({ date, ...data })] *)
Definition toDaySales (e : string * DayAcc.t) : DaySales.t :=
  DaySales.mk (fst e) (DayAcc.sales (snd e)) (DayAcc.revenue (snd e)).

(** The time value the date string of a bucket reads back as. *)
Definition dateTime (parse : string -> option Z) (b : DaySales.t) : Z :=
  match parse (DaySales.date b) with
  | Some t => t
  | None => 0
  end.

(** ** Notions the specification speaks of *)

Module Spec.

(** The distinct keys of a sequence, in the order they are first met. *)
Fixpoint first_occurrences (l : list string) : list string :=
  match l with
  | [] => []
  | k :: l' =>
      k :: filter (fun k' => negb (String.eqb k' k)) (first_occurrences l')
  end.

(** The calendar day (a day number) of an instant for a viewer whose local
    time is UTC plus [tz] milliseconds, and the instant that day starts. *)
Definition localDay (tz t : Z) : Z := (t + tz) / msPerDay.
Definition startOfDay (tz day : Z) : Z := day * msPerDay - tz.

(** The cutoff as the specification words it: [now] minus [windowDays] days,
    truncated to the start of the local day. *)
Definition cutoff (tz now windowDays : Z) : Z :=
  startOfDay tz (localDay tz (now - windowDays * msPerDay)).

Definition filterByWindow (tz now windowDays : Z) (l : list Order.t)
  : list Order.t :=
  filter (fun order => cutoff tz now windowDays <=? orderDate order) l.

(** The groups of the line items, one per [productId], in the order the
    products are first met. *)
Definition groups (items : list Item.t) : list TopProduct.t :=
  map (fun k =>
         let mine := filter (fun i => String.eqb (Item.productId i) k) items in
         TopProduct.mk (match mine with i :: _ => Item.name i | [] => "" end)
           (sumZ (map Item.quantity mine)) (sumZ (map itemRevenue mine)))
      (first_occurrences (map Item.productId items)).

(** The ranking as the specification words it: a stable descending sort of
    the groups taken in first-met order, cut to [limit]. *)
Definition topProducts (limit : nat) (items : list Item.t) : list TopProduct.t :=
  firstn limit (JS.sort byRevenue (groups items)).

Definition lineItemRevenue (items : list Item.t) : Z :=
  sumZ (map itemRevenue items).

(** The count the histogram shows for a label: [0] without a bucket. *)
Definition countFor (k : string) (l : list StatusCount.t) : Z :=
  sumZ (map StatusCount.count
          (filter (fun b => String.eqb (StatusCount.status b) k) l)).

(** The order carries the literal status [k]. *)
Definition hasStatus (k : string) (order : Order.t) : bool :=
  match Order.status order with
  | Some s => String.eqb s k
  | None => false
  end.

(** The order has no status, an empty one, or the literal "Unknown". *)
Definition noStatus (order : Order.t) : bool :=
  match Order.status order with
  | Some s => String.eqb s "" || String.eqb s "Unknown"
  | None => true
  end.

(** The items whose revenue is booked under the category name [k]. *)
Definition bookedUnder (s : Snapshot) (k : string) (items : list Item.t)
  : list Item.t :=
  filter (fun item => match categoryName s item with
                      | Some n => String.eqb n k
                      | None => false
                      end) items.

(** The items whose [productId] names a product of the snapshot. *)
Definition resolved (s : Snapshot) (items : list Item.t) : list Item.t :=
  filter (fun item => match categoryName s item with
                      | Some _ => true
                      | None => false
                      end) items.

(** The orders placed on the local calendar day [d]. *)
Definition ordersOn (tz d : Z) (l : list Order.t) : list Order.t :=
  filter (fun order => match Order.createdAt order with
                       | Some t => localDay tz t =? d
                       | None => false
                       end) l.

Definition amounts (l : list Order.t) : Z :=
  sumZ (map (fun order => JS.or_zero (Order.totalAmount order)) l).

(** The calendar day the date string of a bucket reads back as. *)
Definition bucketDay (tz : Z) (parse : string -> option Z) (b : DaySales.t)
  : Z :=
  match parse (DaySales.date b) with
  | Some t => localDay tz t
  | None => 0
  end.

(** Every order of [l] is dated, the platform prints one date string per
    local day, and it reads the string of each order back as the start of
    the order's local day. *)
Definition readsBack (tz : Z) (fmt : Z -> string)
  (parse : string -> option Z) (l : list Order.t) : bool :=
  forallb
    (fun order =>
       match Order.createdAt order with
       | None => false
       | Some t =>
           negb (String.eqb (fmt t) "")
           && match parse (fmt t) with
              | Some p => p =? startOfDay tz (localDay tz t)
              | None => false
              end
           && forallb
                (fun order' =>
                   match Order.createdAt order' with
                   | Some t' =>
                       implb (localDay tz t =? localDay tz t')
                         (String.eqb (fmt t) (fmt t'))
                   | None => true
                   end) l
       end) l.

(** Ascending by the calendar day the date strings read back as. *)
Definition ascending (tz : Z) (parse : string -> option Z)
  (l : list DaySales.t) : Prop :=
  StronglySorted Z.lt (map (bucketDay tz parse) l).

End Spec.

(** ** Two concrete platforms

    Used to run the model on examples: the date formats of the [en-US] and
    [en-GB] locales, and a parser that reads a slash-separated date as
    month/day/year at local midnight, the way the fallback parser of the
    browser engines does. *)

Module Platform.

(** Proleptic Gregorian civil date of a day number (days since 1970-01-01). *)
Definition civil_from_days (z : Z) : Z * Z * Z :=
  let z := z + 719468 in
  let era := z / 146097 in
  let doe := z - era * 146097 in
  let yoe := (doe - doe / 1460 + doe / 36524 - doe / 146096) / 365 in
  let doy := doe - (365 * yoe + yoe / 4 - yoe / 100) in
  let mp := (5 * doy + 2) / 153 in
  let d := doy - (153 * mp + 2) / 5 + 1 in
  let m := if mp <? 10 then mp + 3 else mp - 9 in
  let y := yoe + era * 400 + (if m <=? 2 then 1 else 0) in
  (y, m, d).

Definition days_from_civil (y m d : Z) : Z :=
  let y := if m <=? 2 then y - 1 else y in
  let era := y / 400 in
  let yoe := y - era * 400 in
  let mp := if 2 <? m then m - 3 else m + 9 in
  let doy := (153 * mp + 2) / 5 + d - 1 in
  let doe := yoe * 365 + yoe / 4 - yoe / 100 + doy in
  era * 146097 + doe - 719468.

Definition dec (n : Z) : string := NilZero.string_of_uint (N.to_uint (Z.to_N n)).

Definition dec2 (n : Z) : string :=
  if n <? 10 then ("0" ++ dec n)%string else dec n.

Definition enUS (tz t : Z) : string :=
  let '(y, m, d) := civil_from_days (Spec.localDay tz t) in
  (dec m ++ "/" ++ dec d ++ "/" ++ dec y)%string.

Definition enGB (tz t : Z) : string :=
  let '(y, m, d) := civil_from_days (Spec.localDay tz t) in
  (dec2 d ++ "/" ++ dec2 m ++ "/" ++ dec y)%string.

Fixpoint split_slash (s : string) (cur : string) : list string :=
  match s with
  | EmptyString => [cur]
  | String c s' =>
      if Ascii.eqb c "/"%char
      then cur :: split_slash s' ""
      else split_slash s' (cur ++ String c "")%string
  end.

Definition number (s : string) : option Z :=
  match s with
  | EmptyString => None
  | _ => option_map (fun u => Z.of_N (N.of_uint u)) (NilZero.uint_of_string s)
  end.

Definition parse (tz : Z) (s : string) : option Z :=
  match split_slash s "" with
  | [a; b; c] =>
      match number a, number b, number c with
      | Some m, Some d, Some y =>
          if (1 <=? m) && (m <=? 12) && (1 <=? d) && (d <=? 31)
          then Some (Spec.startOfDay tz (days_from_civil y m d))
          else None
      | _, _, _ => None
      end
  | _ => None
  end.

(** Midnight UTC of a civil date, as a time value. *)
Definition utc (y m d : Z) : Z := days_from_civil y m d * msPerDay.

End Platform.

(** ** Sample snapshots *)

Module Sample.

(** A viewer at UTC+05:30, looking at the report on 5 February 2024,
    15:30 local time. *)
Definition tz : Z := 19800000.
Definition now : Z := Platform.utc 2024 2 5 + 36000000.

Definition run : Z -> Z -> Snapshot -> AnalyticsData :=
  report (Platform.enUS tz) (Platform.parse tz).

Definition runGB : Z -> Z -> Snapshot -> AnalyticsData :=
  report (Platform.enGB tz) (Platform.parse tz).

Definition catalogue : list Product.t :=
  [Product.mk "p1" "c1"; Product.mk "p2" "c1"; Product.mk "p3" "c2";
   Product.mk "p4" "c2"; Product.mk "p5" "c9"].

Definition shelves : list Category.t :=
  [Category.mk "c1" "Shirts"; Category.mk "c2" "Hoodies"].

(** Scenario B: the single line item names a product that is not in the
    snapshot. *)
Definition orphan : Item.t := Item.mk "p404" "Cap" 50 2.

Definition scenarioB : Snapshot :=
  mkSnapshot
    [Order.mk (Some (now - 3600000)) (Some 100) (Some "Pending")
       (Some [orphan])]
    catalogue shelves.

(** One order with six products, the first of them unknown to the
    snapshot. *)
Definition basket : list Item.t :=
  [Item.mk "p404" "Cap" 10 6; Item.mk "p2" "Polo" 10 5;
   Item.mk "p3" "Zip" 10 4; Item.mk "p4" "Crew" 10 3;
   Item.mk "p5" "Sock" 10 2; Item.mk "p1" "Tee" 10 1].

Definition sixProducts : Snapshot :=
  mkSnapshot
    [Order.mk (Some (now - 3600000)) (Some 210) (Some "Paid") (Some basket)]
    catalogue shelves.

(** Two products with numeric ids and the same revenue, the one with the
    larger id met first. *)
Definition tie : list Item.t :=
  [Item.mk "2" "Scarf" 10 2; Item.mk "1" "Belt" 5 4].

Definition tied : Snapshot :=
  mkSnapshot
    [Order.mk (Some (now - 3600000)) (Some 40) (Some "Paid") (Some tie)]
    [] [].

(** An order placed at 00:30 local time, seven days before [now]. *)
Definition earlyBird : Order.t :=
  Order.mk (Some (Platform.utc 2024 1 29 - tz + 1800000)) (Some 10)
    (Some "Pending") None.

Definition undated : Order.t := Order.mk None (Some 10) (Some "Pending") None.

Definition feb1 : Z := Platform.utc 2024 2 1 + 3600000.
Definition jan2 : Z := Platform.utc 2024 1 2 + 3600000.

Definition winter : Snapshot :=
  mkSnapshot
    [Order.mk (Some feb1) (Some 20) (Some "Paid") None;
     Order.mk (Some jan2) (Some 30) (Some "Paid") None]
    [] [].

Definition withUndated : Snapshot :=
  mkSnapshot [Order.mk (Some feb1) (Some 20) (Some "Paid") None; undated]
    [] [].

(** Scenario D: twenty orders on the first twenty days of January 2024. *)
Definition twentyDays : Snapshot :=
  mkSnapshot
    (map (fun i => Order.mk (Some (Platform.utc 2024 1 1 + Z.of_nat i * msPerDay))
                     (Some 10) (Some "Paid") None)
       (seq 0 20))
    [] [].

End Sample.

(** ** The pie chart of the analytics page *)

Module Chart.

Definition COLORS : list string :=
  ["#8b5cf6"; "#3b82f6"; "#10b981"; "#f59e0b"; "#ef4444"].

(** [COLORS[index % COLORS.length]]; [None] is [undefined]. *)
Definition fill (index : nat) : option string :=
  nth_error COLORS (index mod length COLORS).

(** The [fill] of the cells, one per entry of [revenueByCategory]. *)
Definition fills (r : AnalyticsData) : list (option string) :=
  map fill (seq 0 (length (revenueByCategory r))).

End Chart.

(** ** The orders page *)

Module OrdersPage.

(** [(a, b) => dateB.getTime() - dateA.getTime()], each date being
    [createdAt?.toDate?.() || new Date(0)]; of an order document the sort
    reads [createdAt] only. *)
Definition byRecency (a b : Order.t) : Z := orderDate b - orderDate a.

(** The list [fetchOrders] hands to [setOrders], from the documents read. *)
Definition fetchOrders (ordersData : list Order.t) : list Order.t :=
  JS.sort byRecency ordersData.

End OrdersPage.

(** ** The dashboard *)

Module Dashboard.

Record Stats : Type := mkStats
  { totalProducts : Z;
    totalCategories : Z;
    totalOrders : Z;
    totalRevenue : Z;
    todayOrders : Z }.

(** [today.setHours(0, 0, 0, 0)] on [new Date()], for a viewer whose local
    time is UTC plus [tz] milliseconds. *)
Definition today (tz now : Z) : Z := (now + tz) / msPerDay * msPerDay - tz.

(** The value [fetchStats] hands to [setStats]. *)
Definition fetchStats (tz now : Z) (s : Snapshot) : Stats :=
  let totalProducts := Z.of_nat (length (products s)) in
  let totalCategories := Z.of_nat (length (categories s)) in
  let totalOrders := Z.of_nat (length (orders s)) in
  let totalRevenue :=
    fold_left (fun sum order => sum + JS.or_zero (Order.totalAmount order))
      (orders s) 0 in
  let todayOrders :=
    Z.of_nat (length (filter (fun order => today tz now <=? orderDate order)
                        (orders s))) in
  mkStats totalProducts totalCategories totalOrders totalRevenue todayOrders.

End Dashboard.

(** ** The subcategories page *)

Module SubcategoriesPage.

(** A subcategory document, and the row the page shows for it. *)
Module Doc.
Record t : Type := mk
  { id : string; name : string; categoryId : string; imageUrl : string;
    createdAt : option Z }.
End Doc.

Module Row.
Record t : Type := mk
  { id : string; name : string; categoryId : string; imageUrl : string;
    createdAt : option Z; categoryName : string }.
End Row.

(** [categoriesData.find(c => c.id === data.categoryId)?.name || 'Unknown'] *)
Definition categoryLabel (categoriesData : list Category.t) (categoryId : string)
  : string :=
  JS.or_string
    (option_map Category.name
       (find (fun c => String.eqb (Category.id c) categoryId) categoriesData))
    "Unknown".

(** The rows [fetchData] hands to [setSubcategories]. *)
Definition fetchData (categoriesData : list Category.t) (docs : list Doc.t)
  : list Row.t :=
  map (fun data =>
         Row.mk (Doc.id data) (Doc.name data) (Doc.categoryId data)
           (Doc.imageUrl data) (Doc.createdAt data)
           (categoryLabel categoriesData (Doc.categoryId data)))
    docs.

End SubcategoriesPage.

(** ** The custom orders page *)

Module CustomOrdersPage.

Module CustomOrder.
Record t : Type := mk
  { id : string;
    color : string;
    createdAt : option Z;
    customerName : string;
    customerPhone : string;
    designFileName : string;
    designUrl : string;
    notes : string;
    productType : string;
    quantity : Z;
    sizes : list string;
    status : string }.

(** [{ ...order, status: newStatus }] *)
Definition with_status (order : t) (newStatus : string) : t :=
  mk (id order) (color order) (createdAt order) (customerName order)
    (customerPhone order) (designFileName order) (designUrl order)
    (notes order) (productType order) (quantity order) (sizes order)
    newStatus.
End CustomOrder.

(** The list [updateOrderStatus] hands to [setOrders] once the write has
    gone through. *)
Definition updateOrderStatus (orders : list CustomOrder.t)
  (orderId newStatus : string) : list CustomOrder.t :=
  map (fun order =>
         if String.eqb (CustomOrder.id order) orderId
         then CustomOrder.with_status order newStatus
         else order) orders.

(** The list [handleDelete] hands to [setOrders] once the deletion has gone
    through. *)
Definition handleDelete (orders : list CustomOrder.t) (orderId : string)
  : list CustomOrder.t :=
  filter (fun order => negb (String.eqb (CustomOrder.id order) orderId)) orders.

End CustomOrdersPage.

(** ** The products page *)

Module ProductsPage.

(** [array.includes(item) ? array.filter(i => i !== item) : [...array, item]] *)
Definition toggleArrayItem (array : list string) (item : string) : list string :=
  if existsb (String.eqb item) array
  then filter (fun i => negb (String.eqb i item)) array
  else array ++ [item].

(** [a.filter((x, i) => f(x, i))], the index counted from [i]. *)
Fixpoint filter_from {A} (f : A -> nat -> bool) (i : nat) (a : list A)
  : list A :=
  match a with
  | [] => []
  | x :: a' =>
      if f x i then x :: filter_from f (S i) a' else filter_from f (S i) a'
  end.

(** [images.filter((_, i) => i !== idx)] *)
Definition removeImage (images : list string) (idx : nat) : list string :=
  filter_from (fun _ i => negb (Nat.eqb i idx)) 0 images.

(** A product document; [Num] is the type of the prices. *)
Module Doc.
Record t (Num : Type) : Type := mk
  { id : string;
    name : string;
    description : string;
    price : Num;
    discountPrice : option Num;
    images : list string;
    categoryId : string;
    subcategoryId : string;
    sizes : list string;
    colors : list string;
    stock : Z;
    sku : string;
    tags : list string;
    status : string }.
Arguments mk {Num}.
Arguments id {Num}.
Arguments name {Num}.
Arguments description {Num}.
Arguments price {Num}.
Arguments discountPrice {Num}.
Arguments images {Num}.
Arguments categoryId {Num}.
Arguments subcategoryId {Num}.
Arguments sizes {Num}.
Arguments colors {Num}.
Arguments stock {Num}.
Arguments sku {Num}.
Arguments tags {Num}.
Arguments status {Num}.
End Doc.

(** [formData] *)
Module Form.
Record t : Type := mk
  { name : string;
    description : string;
    price : string;
    discountPrice : string;
    categoryId : string;
    subcategoryId : string;
    sizes : list string;
    colors : list string;
    stock : string;
    sku : string;
    tags : list string;
    status : string;
    images : list string }.

(** The form [resetForm] installs. *)
Definition blank : t := mk "" "" "" "" "" "" [] [] "" "" [] "Active" [].
End Form.

(** [productData] *)
Module Data.
Record t (Num : Type) : Type := mk
  { name : string;
    description : string;
    price : Num;
    discountPrice : option Num;
    images : list string;
    categoryId : string;
    subcategoryId : string;
    sizes : list string;
    colors : list string;
    stock : Z;
    sku : string;
    tags : list string;
    status : string;
    updatedAt : Z }.
Arguments mk {Num}.
Arguments images {Num}.
Arguments sizes {Num}.
Arguments colors {Num}.
Arguments stock {Num}.
End Data.

(** What the page takes from the platform and from the upload service; a
    rejected upload is [None], and so is the NaN of [parseInt]. *)
Record Env (File Num : Type) : Type := mkEnv
  { parseFloat : string -> Num;
    parseInt : string -> option Z;
    numToString : Num -> string;
    intToString : Z -> string;
    createObjectURL : File -> string;
    uploadToCloudinary : File -> option string }.
Arguments parseFloat {File Num}.
Arguments parseInt {File Num}.
Arguments numToString {File Num}.
Arguments intToString {File Num}.
Arguments createObjectURL {File Num}.
Arguments uploadToCloudinary {File Num}.

(** The state of the dialog. *)
Record State (File Num : Type) : Type := mkState
  { formData : Form.t;
    imageFiles : list File;
    editingProduct : option (Doc.t Num) }.
Arguments mkState {File Num}.
Arguments formData {File Num}.
Arguments imageFiles {File Num}.
Arguments editingProduct {File Num}.

(** The handlers of the dialog. *)
Inductive Action (File Num : Type) : Type :=
| SetName (v : string)
| SetSku (v : string)
| SetDescription (v : string)
| SetPrice (v : string)
| SetDiscountPrice (v : string)
| SetStock (v : string)
| SetCategory (v : string)
| SetSubcategory (v : string)
| ToggleSize (size : string)
| ToggleColor (color : string)
| Drop (acceptedFiles : list File)
| RemoveImage (idx : nat)
| SetStatus (v : string)
| Edit (product : Doc.t Num)
| Close.
Arguments SetName {File Num}.
Arguments SetSku {File Num}.
Arguments SetDescription {File Num}.
Arguments SetPrice {File Num}.
Arguments SetDiscountPrice {File Num}.
Arguments SetStock {File Num}.
Arguments SetCategory {File Num}.
Arguments SetSubcategory {File Num}.
Arguments ToggleSize {File Num}.
Arguments ToggleColor {File Num}.
Arguments Drop {File Num}.
Arguments RemoveImage {File Num}.
Arguments SetStatus {File Num}.
Arguments Edit {File Num}.
Arguments Close {File Num}.

(** What [handleSubmit] does: refuse the form, fail on a rejected upload, or
    ask the store to update or to add a document. *)
Inductive Outcome (Num : Type) : Type :=
| Invalid
| UploadFailed
| Update (id : string) (productData : Data.t Num)
| Add (productData : Data.t Num) (createdAt : Z).
Arguments Invalid {Num}.
Arguments UploadFailed {Num}.
Arguments Update {Num}.
Arguments Add {Num}.

Section Page.

Context {File Num : Type}.
Variable env : Env File Num.

Definition with_form (f : Form.t -> Form.t) (st : State File Num)
  : State File Num :=
  mkState (f (formData st)) (imageFiles st) (editingProduct st).

(** The form the edit button installs:
    [{ ...product, price: product.price.toString(), ... }]. *)
Definition formOf (product : Doc.t Num) : Form.t :=
  Form.mk (Doc.name product) (Doc.description product)
    (numToString env (Doc.price product))
    (JS.or_string (option_map (numToString env) (Doc.discountPrice product)) "")
    (Doc.categoryId product) (Doc.subcategoryId product)
    (Doc.sizes product) (Doc.colors product)
    (intToString env (Doc.stock product))
    (Doc.sku product) (Doc.tags product) (Doc.status product)
    (Doc.images product).

Definition resetForm (st : State File Num) : State File Num :=
  mkState Form.blank [] None.

Definition step (st : State File Num) (a : Action File Num) : State File Num :=
  let fd := formData st in
  let upd f := with_form (fun _ => f) st in
  match a with
  | SetName v =>
      upd (Form.mk v (Form.description fd) (Form.price fd)
             (Form.discountPrice fd) (Form.categoryId fd)
             (Form.subcategoryId fd) (Form.sizes fd) (Form.colors fd)
             (Form.stock fd) (Form.sku fd) (Form.tags fd) (Form.status fd)
             (Form.images fd))
  | SetSku v =>
      upd (Form.mk (Form.name fd) (Form.description fd) (Form.price fd)
             (Form.discountPrice fd) (Form.categoryId fd)
             (Form.subcategoryId fd) (Form.sizes fd) (Form.colors fd)
             (Form.stock fd) v (Form.tags fd) (Form.status fd)
             (Form.images fd))
  | SetDescription v =>
      upd (Form.mk (Form.name fd) v (Form.price fd)
             (Form.discountPrice fd) (Form.categoryId fd)
             (Form.subcategoryId fd) (Form.sizes fd) (Form.colors fd)
             (Form.stock fd) (Form.sku fd) (Form.tags fd) (Form.status fd)
             (Form.images fd))
  | SetPrice v =>
      upd (Form.mk (Form.name fd) (Form.description fd) v
             (Form.discountPrice fd) (Form.categoryId fd)
             (Form.subcategoryId fd) (Form.sizes fd) (Form.colors fd)
             (Form.stock fd) (Form.sku fd) (Form.tags fd) (Form.status fd)
             (Form.images fd))
  | SetDiscountPrice v =>
      upd (Form.mk (Form.name fd) (Form.description fd) (Form.price fd)
             v (Form.categoryId fd)
             (Form.subcategoryId fd) (Form.sizes fd) (Form.colors fd)
             (Form.stock fd) (Form.sku fd) (Form.tags fd) (Form.status fd)
             (Form.images fd))
  | SetStock v =>
      upd (Form.mk (Form.name fd) (Form.description fd) (Form.price fd)
             (Form.discountPrice fd) (Form.categoryId fd)
             (Form.subcategoryId fd) (Form.sizes fd) (Form.colors fd)
             v (Form.sku fd) (Form.tags fd) (Form.status fd)
             (Form.images fd))
  | SetCategory v =>
      upd (Form.mk (Form.name fd) (Form.description fd) (Form.price fd)
             (Form.discountPrice fd) v
             "" (Form.sizes fd) (Form.colors fd)
             (Form.stock fd) (Form.sku fd) (Form.tags fd) (Form.status fd)
             (Form.images fd))
  | SetSubcategory v =>
      upd (Form.mk (Form.name fd) (Form.description fd) (Form.price fd)
             (Form.discountPrice fd) (Form.categoryId fd)
             v (Form.sizes fd) (Form.colors fd)
             (Form.stock fd) (Form.sku fd) (Form.tags fd) (Form.status fd)
             (Form.images fd))
  | ToggleSize size =>
      upd (Form.mk (Form.name fd) (Form.description fd) (Form.price fd)
             (Form.discountPrice fd) (Form.categoryId fd)
             (Form.subcategoryId fd) (toggleArrayItem (Form.sizes fd) size)
             (Form.colors fd)
             (Form.stock fd) (Form.sku fd) (Form.tags fd) (Form.status fd)
             (Form.images fd))
  | ToggleColor color =>
      upd (Form.mk (Form.name fd) (Form.description fd) (Form.price fd)
             (Form.discountPrice fd) (Form.categoryId fd)
             (Form.subcategoryId fd) (Form.sizes fd)
             (toggleArrayItem (Form.colors fd) color)
             (Form.stock fd) (Form.sku fd) (Form.tags fd) (Form.status fd)
             (Form.images fd))
  | Drop acceptedFiles =>
      mkState
        (Form.mk (Form.name fd) (Form.description fd) (Form.price fd)
           (Form.discountPrice fd) (Form.categoryId fd)
           (Form.subcategoryId fd) (Form.sizes fd) (Form.colors fd)
           (Form.stock fd) (Form.sku fd) (Form.tags fd) (Form.status fd)
           (Form.images fd ++ map (createObjectURL env) acceptedFiles))
        (imageFiles st ++ acceptedFiles) (editingProduct st)
  | RemoveImage idx =>
      upd (Form.mk (Form.name fd) (Form.description fd) (Form.price fd)
             (Form.discountPrice fd) (Form.categoryId fd)
             (Form.subcategoryId fd) (Form.sizes fd) (Form.colors fd)
             (Form.stock fd) (Form.sku fd) (Form.tags fd) (Form.status fd)
             (removeImage (Form.images fd) idx))
  | SetStatus v =>
      upd (Form.mk (Form.name fd) (Form.description fd) (Form.price fd)
             (Form.discountPrice fd) (Form.categoryId fd)
             (Form.subcategoryId fd) (Form.sizes fd) (Form.colors fd)
             (Form.stock fd) (Form.sku fd) (Form.tags fd) v
             (Form.images fd))
  | Edit product => mkState (formOf product) (imageFiles st) (Some product)
  | Close => resetForm st
  end.

Definition run (st : State File Num) (actions : list (Action File Num))
  : State File Num :=
  fold_left step actions st.

(** [Promise.all(imageFiles.map(file => uploadToCloudinary(file)))] *)
Fixpoint uploadAll (files : list File) : option (list string) :=
  match files with
  | [] => Some []
  | file :: files' =>
      match uploadToCloudinary env file, uploadAll files' with
      | Some url, Some urls => Some (url :: urls)
      | _, _ => None
      end
  end.

(** [handleSubmit] up to the request it sends to the store; [now] and
    [created] are the readings of [Timestamp.now()] for [updatedAt] and for
    [createdAt]. *)
Definition handleSubmit (now created : Z) (st : State File Num)
  : Outcome Num :=
  let fd := formData st in
  if String.eqb (Form.name fd) "" || String.eqb (Form.price fd) ""
     || String.eqb (Form.categoryId fd) ""
  then Invalid
  else
    let uploadedImages :=
      match imageFiles st with
      | [] => Some (Form.images fd)
      | _ =>
          match uploadAll (imageFiles st) with
          | Some uploads =>
              Some (match editingProduct st with
                    | Some product => Doc.images product
                    | None => []
                    end ++ uploads)
          | None => None
          end
      end in
    match uploadedImages with
    | None => UploadFailed
    | Some uploadedImages =>
        let productData :=
          Data.mk (Form.name fd) (Form.description fd)
            (parseFloat env (Form.price fd))
            (if String.eqb (Form.discountPrice fd) "" then None
             else Some (parseFloat env (Form.discountPrice fd)))
            uploadedImages (Form.categoryId fd) (Form.subcategoryId fd)
            (Form.sizes fd) (Form.colors fd)
            (JS.or_zero (parseInt env (Form.stock fd)))
            (Form.sku fd) (Form.tags fd) (Form.status fd) now in
        match editingProduct st with
        | Some product => Update (Doc.id product) productData
        | None => Add productData created
        end
    end.

(** The files the actions drop after the dialog was last closed, and the
    previews left of [images] by the removals among the actions. *)
Definition droppedFiles (actions : list (Action File Num)) : list File :=
  fold_left (fun files a => match a with
                            | Drop acceptedFiles => files ++ acceptedFiles
                            | Close => []
                            | _ => files
                            end) actions [].

Definition removals (actions : list (Action File Num)) : list nat :=
  flat_map (fun a => match a with RemoveImage idx => [idx] | _ => [] end)
    actions.

(** The actions that leave the dialog on the product it was opened for. *)
Definition keepsDialog (a : Action File Num) : bool :=
  match a with Edit _ | Close => false | _ => true end.

Definition isEdit (a : Action File Num) : bool :=
  match a with Edit _ => true | _ => false end.

(** A drop that brings at least one file. *)
Definition isDrop (a : Action File Num) : bool :=
  match a with Drop (_ :: _) => true | _ => false end.

End Page.

End ProductsPage.

(** ** Sample sessions of the pages *)

Module SamplePages.

Import ProductsPage.

(** Files are named by strings and prices are whole numbers. *)
Definition env : Env string Z :=
  mkEnv string Z
    (fun s => match Platform.number s with Some n => n | None => 0 end)
    Platform.number Platform.dec Platform.dec
    (fun file => ("blob:" ++ file)%string)
    (fun file => Some ("https://cdn/" ++ file)%string).

Definition closed : State string Z := mkState Form.blank [] None.

Definition hoodie : Doc.t Z :=
  Doc.mk "p7" "Hoodie" "Warm" 40 None ["https://cdn/front.png"; "https://cdn/back.png"]
    "c2" "" ["M"; "L"] ["Black"] 12 "H-7" [] "Active".

(** Two files are dropped on the hoodie and every preview is removed. *)
Definition retouch : list (Action string Z) :=
  [Drop ["side.png"; "tag.png"]; RemoveImage 3; RemoveImage 2;
   RemoveImage 0; ToggleSize "M"; ToggleSize "XL"].

(** One of the hoodie's images is removed, no file is dropped. *)
Definition prune : list (Action string Z) :=
  [RemoveImage 0; SetPrice "45"; ToggleColor "Black"; Drop []].

Definition pending : CustomOrdersPage.CustomOrder.t :=
  CustomOrdersPage.CustomOrder.mk "o1" "Red" (Some Sample.now) "Asha" "555"
    "logo.png" "https://cdn/logo.png" "" "Tee" 3 ["M"] "Pending".

End SamplePages.

(** * Properties *)

Ltac lens :=
  solve [ intros []; reflexivity
        | intros ? []; reflexivity
        | intros ? ? []; reflexivity ].


(** ** Dictionaries *)

Section Dictionaries.

Context {V : Type}.
Implicit Types (o : JS.obj V) (k : string) (v : V).

Lemma get_set_eq o k v : JS.get (JS.set o k v) k = Some v.
Proof.
  induction o as [|[k' v'] o IH]; simpl.
  - now rewrite String.eqb_refl.
  - destruct (String.eqb k' k) eqn:E; simpl; now rewrite E.
Qed.

Lemma get_set_neq o k k' v :
  k <> k' -> JS.get (JS.set o k v) k' = JS.get o k'.
Proof.
  intros Hne. induction o as [|[k0 v0] o IH]; simpl.
  - apply String.eqb_neq in Hne. now rewrite Hne.
  - destruct (String.eqb k0 k) eqn:E; simpl.
    + apply String.eqb_eq in E; subst k0.
      apply String.eqb_neq in Hne. now rewrite Hne.
    + now rewrite IH.
Qed.

Lemma get_None_iff o k : JS.get o k = None <-> ~ In k (JS.keys o).
Proof.
  induction o as [|[k' v'] o IH]; simpl.
  - tauto.
  - destruct (String.eqb_spec k' k) as [->|Hne].
    + split; [discriminate | tauto].
    + rewrite IH. tauto.
Qed.

Lemma get_Some_In o k v : JS.get o k = Some v -> In (k, v) o.
Proof.
  induction o as [|[k' v'] o IH]; simpl; [discriminate|].
  destruct (String.eqb_spec k' k) as [->|Hne].
  - intros [= ->]. now left.
  - intros H. right. now apply IH.
Qed.

Lemma In_get_Some o k v :
  NoDup (JS.keys o) -> In (k, v) o -> JS.get o k = Some v.
Proof.
  induction o as [|[k' v'] o IH]; simpl; [tauto|].
  intros Hnd [H|H].
  - injection H as -> ->. now rewrite String.eqb_refl.
  - inversion Hnd as [|? ? Hnotin Hnd']; subst.
    destruct (String.eqb_spec k' k) as [->|Hne].
    + exfalso. apply Hnotin. change k with (fst (k, v)). now apply in_map.
    + now apply IH.
Qed.

Lemma keys_set o k v :
  JS.keys (JS.set o k v)
  = if existsb (String.eqb k) (JS.keys o) then JS.keys o else JS.keys o ++ [k].
Proof.
  induction o as [|[k' v'] o IH]; simpl; [reflexivity|].
  rewrite (String.eqb_sym k k').
  destruct (String.eqb k' k) eqn:E; simpl.
  - apply String.eqb_eq in E. now subst.
  - rewrite IH. now destruct (existsb (String.eqb k) (JS.keys o)).
Qed.

Lemma existsb_eqb_In k (l : list string) :
  existsb (String.eqb k) l = true <-> In k l.
Proof.
  rewrite existsb_exists. split.
  - intros [x [Hx E]]. apply String.eqb_eq in E. now subst.
  - intros H. exists k. split; [assumption | apply String.eqb_refl].
Qed.

Lemma NoDup_keys_set o k v : NoDup (JS.keys o) -> NoDup (JS.keys (JS.set o k v)).
Proof.
  intros Hnd. rewrite keys_set.
  destruct (existsb (String.eqb k) (JS.keys o)) eqn:E; [assumption|].
  apply NoDup_rev in Hnd. rewrite <- (rev_involutive (JS.keys o ++ [k])).
  apply NoDup_rev. rewrite rev_app_distr. simpl. constructor; [|assumption].
  rewrite <- in_rev. intros Hin. apply existsb_eqb_In in Hin. congruence.
Qed.

Lemma modify_as_set o k v (f : V -> V) :
  JS.get o k = Some v -> JS.modify o k f = JS.set o k (f v).
Proof.
  induction o as [|[k' v'] o IH]; simpl; [discriminate|].
  destruct (String.eqb k' k).
  - now intros [= ->].
  - intros H. now rewrite IH.
Qed.

Lemma set_set o k v v' : JS.set (JS.set o k v) k v' = JS.set o k v'.
Proof.
  induction o as [|[k0 v0] o IH]; simpl.
  - now rewrite String.eqb_refl.
  - destruct (String.eqb k0 k) eqn:E; simpl; rewrite E; [reflexivity|].
    now rewrite IH.
Qed.

End Dictionaries.

(** ** Enumeration order of a dictionary *)

Section Enumeration.

Context {V : Type}.
Implicit Types (o : JS.obj V) (e : string * V).

Lemma insert_index_perm e (l : list (string * V)) :
  Permutation (JS.insert_index e l) (e :: l).
Proof.
  induction l as [|e' l IH]; simpl; [reflexivity|].
  destruct (N.leb _ _); [reflexivity|].
  rewrite IH. apply perm_swap.
Qed.

Lemma sort_index_perm (l : list (string * V)) : Permutation (JS.sort_index l) l.
Proof.
  induction l as [|e l IH]; simpl; [reflexivity|].
  rewrite insert_index_perm. now constructor.
Qed.

Lemma filter_split_perm {A} (f : A -> bool) (l : list A) :
  Permutation (filter f l ++ filter (fun x => negb (f x)) l) l.
Proof.
  induction l as [|x l IH]; simpl; [reflexivity|].
  destruct (f x); simpl.
  - now constructor.
  - rewrite <- Permutation_middle. now constructor.
Qed.

Lemma Object_entries_perm o : Permutation (JS.Object_entries o) o.
Proof.
  unfold JS.Object_entries.
  rewrite sort_index_perm. apply filter_split_perm.
Qed.

(** Without array indices among the keys, enumeration is creation order. *)
Lemma Object_entries_plain o :
  (forall k, In k (JS.keys o) -> JS.is_index k = false) ->
  JS.Object_entries o = o.
Proof.
  intros H. unfold JS.Object_entries.
  assert (Hall : forall e, In e o -> JS.is_index (fst e) = false).
  { intros e He. apply H. unfold JS.keys. now apply in_map. }
  clear H.
  assert (H1 : filter (fun e => JS.is_index (fst e)) o = []).
  { induction o as [|e o IH]; [reflexivity|].
    simpl. rewrite (Hall e (or_introl eq_refl)).
    apply IH. intros e' He'. apply Hall. now right. }
  rewrite H1. clear H1. simpl.
  induction o as [|e o IH]; [reflexivity|].
  simpl. rewrite (Hall e (or_introl eq_refl)). simpl.
  f_equal. apply IH. intros e' He'. apply Hall. now right.
Qed.

Lemma Object_entries_In o k v :
  NoDup (JS.keys o) ->
  (In (k, v) (JS.Object_entries o) <-> JS.get o k = Some v).
Proof.
  intros Hnd. split.
  - intros H. apply In_get_Some; [assumption|].
    eapply Permutation_in; [apply Object_entries_perm | exact H].
  - intros H. eapply Permutation_in.
    + symmetry. apply Object_entries_perm.
    + now apply get_Some_In.
Qed.

Lemma Object_entries_length o : length (JS.Object_entries o) = length o.
Proof. apply Permutation_length, Object_entries_perm. Qed.

End Enumeration.

(** ** Array.prototype.sort *)

Section Sorting.

Context {A : Type}.
Implicit Types (cmp : A -> A -> Z) (l : list A).

Lemma sort_insert_perm cmp x l : Permutation (JS.sort_insert cmp x l) (x :: l).
Proof.
  induction l as [|y l IH]; simpl; [reflexivity|].
  destruct (Z.leb _ _); [reflexivity|].
  rewrite IH. apply perm_swap.
Qed.

Lemma sort_perm cmp l : Permutation (JS.sort cmp l) l.
Proof.
  induction l as [|x l IH]; simpl; [reflexivity|].
  rewrite sort_insert_perm. now constructor.
Qed.

Lemma sort_length cmp l : length (JS.sort cmp l) = length l.
Proof. apply Permutation_length, sort_perm. Qed.

Lemma sort_insert_ext cmp cmp' x l :
  (forall y, In y l -> cmp x y = cmp' x y) ->
  JS.sort_insert cmp x l = JS.sort_insert cmp' x l.
Proof.
  induction l as [|y l IH]; intros H; simpl; [reflexivity|].
  rewrite (H y (or_introl eq_refl)).
  destruct (Z.leb _ _); [reflexivity|].
  f_equal. apply IH. intros z Hz. apply H. now right.
Qed.

(** Only the comparisons between elements of the array matter. *)
Lemma sort_ext cmp cmp' l :
  (forall x y, In x l -> In y l -> cmp x y = cmp' x y) ->
  JS.sort cmp l = JS.sort cmp' l.
Proof.
  induction l as [|x l IH]; intros H; simpl; [reflexivity|].
  rewrite IH by (intros; apply H; now right).
  apply sort_insert_ext. intros y Hy. apply H; [now left|].
  right. eapply Permutation_in; [apply sort_perm | exact Hy].
Qed.

(** *** Comparators that subtract a key *)

Variable key : A -> Z.

Lemma sort_insert_sorted x l :
  StronglySorted (fun a b => key a <= key b) l ->
  StronglySorted (fun a b => key a <= key b) (JS.sort_insert (byKey key) x l).
Proof.
  induction 1 as [|y l Hl IH Hy]; simpl.
  - repeat constructor.
  - unfold byKey at 1. destruct (Z.leb_spec (key x - key y) 0) as [Hle|Hgt].
    + constructor; [now constructor|].
      constructor; [lia|].
      rewrite Forall_forall in *. intros z Hz. specialize (Hy z Hz). lia.
    + constructor; [assumption|].
      rewrite Forall_forall in *. intros z Hz.
      apply (Permutation_in _ (sort_insert_perm (byKey key) x l)) in Hz.
      destruct Hz as [<-|Hz]; [lia | now apply Hy].
Qed.

Lemma sort_sorted l :
  StronglySorted (fun a b => key a <= key b) (JS.sort (byKey key) l).
Proof.
  induction l as [|x l IH]; simpl; [constructor|].
  now apply sort_insert_sorted.
Qed.

(** Stability: the elements of any one key keep their relative order. *)
Lemma sort_insert_stable r x l :
  StronglySorted (fun a b => key a <= key b) l ->
  filter (fun a => key a =? r) (JS.sort_insert (byKey key) x l)
  = filter (fun a => key a =? r) (x :: l).
Proof.
  induction 1 as [|y l Hl IH Hy]; [reflexivity|].
  cbn [JS.sort_insert]. unfold byKey at 1.
  destruct (Z.leb_spec (key x - key y) 0) as [Hle|Hgt]; [reflexivity|].
  cbn [filter]. rewrite IH. cbn [filter].
  destruct (Z.eqb_spec (key x) r) as [Hx|Hx];
    destruct (Z.eqb_spec (key y) r) as [Hy'|Hy']; try reflexivity.
  lia.
Qed.

Lemma sort_stable r l :
  filter (fun a => key a =? r) (JS.sort (byKey key) l)
  = filter (fun a => key a =? r) l.
Proof.
  induction l as [|x l IH]; [reflexivity|].
  cbn [JS.sort fold_right].
  rewrite sort_insert_stable by apply sort_sorted.
  cbn [filter]. fold (JS.sort (byKey key) l). now rewrite IH.
Qed.

End Sorting.

Lemma sorted_le_NoDup_lt (l : list Z) :
  StronglySorted Z.le l -> NoDup l -> StronglySorted Z.lt l.
Proof.
  induction 1 as [|x l Hl IH Hx]; intros Hnd; [constructor|].
  inversion Hnd as [|? ? Hnotin Hnd']; subst.
  constructor; [now apply IH|].
  rewrite Forall_forall in *. intros y Hy.
  specialize (Hx y Hy). assert (x <> y) by (intros ->; tauto). lia.
Qed.

Lemma sorted_map {A} (key : A -> Z) (R : Z -> Z -> Prop) (l : list A) :
  StronglySorted (fun a b => R (key a) (key b)) l ->
  StronglySorted R (map key l).
Proof.
  induction 1 as [|x l Hl IH Hx]; simpl; constructor; [assumption|].
  rewrite Forall_forall in *. intros y Hy.
  apply in_map_iff in Hy as [a [<- Ha]]. now apply Hx.
Qed.

(** ** Group-by accumulators *)

Lemma filter_filter_and {A} (f g : A -> bool) (l : list A) :
  filter f (filter g l) = filter (fun x => g x && f x) l.
Proof.
  induction l as [|x l IH]; simpl; [reflexivity|].
  destruct (g x); simpl; [destruct (f x)|]; now rewrite IH.
Qed.

Lemma first_occurrences_In (l : list string) k :
  In k (Spec.first_occurrences l) <-> In k l.
Proof.
  induction l as [|k' l IH]; simpl; [tauto|].
  rewrite filter_In, IH, negb_true_iff, String.eqb_neq.
  destruct (String.eqb_spec k' k); [tauto|].
  split; [tauto|]. intros [H|H]; [tauto|]. right. split; congruence.
Qed.

Lemma first_occurrences_NoDup (l : list string) :
  NoDup (Spec.first_occurrences l).
Proof.
  induction l as [|k l IH]; simpl; constructor.
  - rewrite filter_In, negb_true_iff, String.eqb_neq. tauto.
  - now apply NoDup_filter.
Qed.

Section GroupBy.

Context {X V : Type}.
Variables (key : X -> string) (init : X -> V) (upd : X -> V -> V).

Let step := group_step key init upd.

(** The group of [k] is the fold of the updates of the elements keyed [k]. *)
Lemma group_get (xs : list X) (o : JS.obj V) (k : string) :
  JS.get (fold_left step xs o) k
  = fold_left (regroup init upd) (filter (fun x => String.eqb (key x) k) xs) (JS.get o k).
Proof.
  revert o. induction xs as [|x xs IH]; intros o; simpl; [reflexivity|].
  rewrite IH. unfold step, group_step.
  destruct (String.eqb_spec (key x) k) as [E|E]; simpl.
  - subst k. now rewrite get_set_eq.
  - now rewrite get_set_neq.
Qed.

Lemma group_NoDup (xs : list X) (o : JS.obj V) :
  NoDup (JS.keys o) -> NoDup (JS.keys (fold_left step xs o)).
Proof.
  revert o. induction xs as [|x xs IH]; intros o H; simpl; [assumption|].
  apply IH. now apply NoDup_keys_set.
Qed.

Lemma group_keys_from (xs : list X) (o : JS.obj V) :
  JS.keys (fold_left step xs o)
  = JS.keys o
    ++ filter (fun k => negb (existsb (String.eqb k) (JS.keys o)))
         (Spec.first_occurrences (map key xs)).
Proof.
  revert o. induction xs as [|x xs IH]; intros o; simpl.
  - now rewrite app_nil_r.
  - rewrite IH. unfold step, group_step. rewrite keys_set.
    rewrite filter_filter_and.
    destruct (existsb (String.eqb (key x)) (JS.keys o)) eqn:E; simpl.
    + f_equal. apply filter_ext_in. intros k _.
      destruct (String.eqb_spec k (key x)) as [->|Hne]; simpl.
      * now rewrite E.
      * reflexivity.
    + rewrite <- app_assoc. simpl. do 2 f_equal.
      apply filter_ext_in. intros k _.
      rewrite existsb_app. simpl. rewrite orb_false_r.
      rewrite negb_orb, andb_comm. reflexivity.
Qed.

(** Created from the empty object, the groups appear in first-met order. *)
Lemma group_keys (xs : list X) :
  JS.keys (fold_left step xs []) = Spec.first_occurrences (map key xs).
Proof.
  rewrite group_keys_from. simpl.
  induction (Spec.first_occurrences (map key xs)) as [|k l IH];
    simpl; congruence.
Qed.

End GroupBy.

Section Counting.

Context {X : Type}.
Variables (key : X -> string) (val : X -> Z).

Lemma regroup_sum (l : list X) (a : Z) :
  fold_left (regroup (fun _ => 0) (fun x v => v + val x)) l (Some a)
  = Some (a + sumZ (map val l)).
Proof.
  revert a. induction l as [|x l IH]; intros a; simpl.
  - f_equal. lia.
  - unfold regroup at 2. rewrite IH. f_equal. lia.
Qed.

(** A counter holds the sum of the values booked under its key, and a key
    nothing was booked under is absent. *)
Lemma count_get (xs : list X) (k : string) :
  JS.get (fold_left (count_step key val) xs []) k
  = match filter (fun x => String.eqb (key x) k) xs with
    | [] => None
    | l => Some (sumZ (map val l))
    end.
Proof.
  unfold count_step. rewrite group_get. simpl.
  destruct (filter _ xs) as [|x l]; [reflexivity|].
  simpl. unfold regroup at 2. now rewrite regroup_sum.
Qed.

Lemma sum_set (o : JS.obj Z) (k : string) (v : Z) :
  sumZ (map snd (JS.set o k (match JS.get o k with Some a => a | None => 0 end + v)))
  = sumZ (map snd o) + v.
Proof.
  induction o as [|[k' a] o IH]; simpl; [lia|].
  destruct (String.eqb k' k); simpl; [lia|]. rewrite IH. lia.
Qed.

(** The counters add up to everything that was booked. *)
Lemma count_sum (xs : list X) (o : JS.obj Z) :
  sumZ (map snd (fold_left (count_step key val) xs o))
  = sumZ (map snd o) + sumZ (map val xs).
Proof.
  revert o. induction xs as [|x xs IH]; intros o; simpl; [lia|].
  rewrite IH. unfold count_step, group_step.
  rewrite sum_set. lia.
Qed.

End Counting.

(** ** The loops of fetchAnalytics *)

Section Loops.

Context {A T : Type}.
Variables (getF : Heap -> T) (setF : T -> Heap -> Heap).
Hypothesis get_set : forall o h, getF (setF o h) = o.
Hypothesis set_set' : forall o o' h, setF o (setF o' h) = setF o h.
Hypothesis set_get : forall h, setF (getF h) h = h.
Hypothesis set_frame : forall o h, snapshot (setF o h) = snapshot h.

(** A loop whose body rewrites one dictionary, reading the snapshot at most,
    is a fold over that dictionary. *)
Lemma forEach_fold (g : Snapshot -> T -> A -> T) (f : A -> Heap -> Heap)
  (l : list A) (h : Heap) :
  (forall x h, f x h = setF (g (snapshot h) (getF h) x) h) ->
  forEach l f h = setF (fold_left (g (snapshot h)) l (getF h)) h.
Proof.
  intros Hf. revert h. induction l as [|x l IH]; intros h.
  - simpl. now rewrite set_get.
  - unfold forEach in *. simpl. rewrite IH, Hf.
    now rewrite set_frame, get_set, set_set'.
Qed.

End Loops.

Lemma forEach_items (f : Item.t -> Heap -> Heap) (l : list Order.t) (h : Heap) :
  forEach l (fun order => forEachItem order f) h = forEach (allItems l) f h.
Proof.
  revert h. unfold forEach, allItems.
  induction l as [|order l IH]; intros h; simpl; [reflexivity|].
  rewrite fold_left_app, IH. unfold forEachItem, forEach.
  now destruct (Order.products order).
Qed.

Lemma productSales_item_step (item : Item.t) (h : Heap) :
  productSales_item item h
  = set_productSales (productSales_step (productSales h) item) h.
Proof.
  destruct h as [s ps cr sd sc].
  unfold productSales_item, productSales_step, group_step, set_productSales.
  cbn [productSales snapshot categoryRevenue salesByDate statusCount].
  destruct (JS.get ps (Item.productId item)) as [e|] eqn:E;
    cbn [productSales snapshot categoryRevenue salesByDate statusCount].
  - rewrite (modify_as_set _ _ _ _ E).
    rewrite (modify_as_set _ _ _ _ (get_set_eq ps _ _)).
    now rewrite set_set.
  - rewrite (modify_as_set _ _ _ _ (get_set_eq ps _ _)), set_set.
    rewrite (modify_as_set _ _ _ _ (get_set_eq ps _ _)).
    now rewrite set_set.
Qed.

Lemma salesByDate_order_step (fmt : Z -> string) (order : Order.t) (h : Heap) :
  salesByDate_order fmt order h
  = set_salesByDate (salesByDate_step fmt (salesByDate h) order) h.
Proof.
  destruct h as [s ps cr sd sc].
  unfold salesByDate_order, salesByDate_step, group_step, set_salesByDate.
  cbn [productSales snapshot categoryRevenue salesByDate statusCount].
  destruct (JS.get sd (dateKey fmt order)) as [e|] eqn:E;
    cbn [productSales snapshot categoryRevenue salesByDate statusCount].
  - rewrite (modify_as_set _ _ _ _ E).
    rewrite (modify_as_set _ _ _ _ (get_set_eq sd _ _)).
    now rewrite set_set.
  - rewrite (modify_as_set _ _ _ _ (get_set_eq sd _ _)), set_set.
    rewrite (modify_as_set _ _ _ _ (get_set_eq sd _ _)).
    now rewrite set_set.
Qed.

Lemma statusCount_order_step (order : Order.t) (h : Heap) :
  statusCount_order order h
  = set_statusCount (statusCount_step (statusCount h) order) h.
Proof.
  unfold statusCount_order, statusCount_step, count_step, group_step, JS.or_zero.
  now destruct (JS.get (statusCount h) (statusKey order)).
Qed.

Lemma categoryRevenue_item_step (item : Item.t) (h : Heap) :
  categoryRevenue_item item h
  = set_categoryRevenue
      (categoryRevenue_book (snapshot h) (categoryRevenue h) item) h.
Proof.
  unfold categoryRevenue_item, categoryRevenue_book, categoryName.
  destruct (find _ (products (snapshot h))) as [p|].
  - unfold categoryRevenue_step, count_step, group_step, JS.or_zero. simpl.
    now destruct (JS.get (categoryRevenue h) _).
  - now destruct h.
Qed.

Lemma categoryRevenue_booked (s : Snapshot) (items : list Item.t) (o : JS.obj Z) :
  fold_left (categoryRevenue_book s) items o
  = fold_left categoryRevenue_step (booked s items) o.
Proof.
  revert o. unfold booked.
  induction items as [|item items IH]; intros o; simpl; [reflexivity|].
  rewrite fold_left_app, <- IH. unfold categoryRevenue_book at 2.
  now destruct (categoryName s item).
Qed.

Section Run.

Variable toLocaleDateString : Z -> string.
Variable Date_parse : string -> option Z.

Lemma run_productSales (l : list Order.t) (h : Heap) :
  forEach l (fun order => forEachItem order productSales_item) h
  = set_productSales (fold_left productSales_step (allItems l) (productSales h)) h.
Proof.
  rewrite forEach_items.
  apply (forEach_fold productSales set_productSales) with
    (g := fun _ => productSales_step);
    try lens.
  all: intros; apply productSales_item_step.
Qed.

Lemma run_categoryRevenue (l : list Order.t) (h : Heap) :
  forEach l (fun order => forEachItem order categoryRevenue_item) h
  = set_categoryRevenue
      (fold_left categoryRevenue_step (booked (snapshot h) (allItems l))
         (categoryRevenue h)) h.
Proof.
  rewrite forEach_items, <- categoryRevenue_booked.
  apply (forEach_fold categoryRevenue set_categoryRevenue) with
    (g := categoryRevenue_book);
    try lens.
  all: intros; apply categoryRevenue_item_step.
Qed.

Lemma run_salesByDate (l : list Order.t) (h : Heap) :
  forEach l (salesByDate_order toLocaleDateString) h
  = set_salesByDate
      (fold_left (salesByDate_step toLocaleDateString) l (salesByDate h)) h.
Proof.
  apply (forEach_fold salesByDate set_salesByDate) with
    (g := fun _ => salesByDate_step toLocaleDateString);
    try lens.
  all: intros; apply salesByDate_order_step.
Qed.

Lemma run_statusCount (l : list Order.t) (h : Heap) :
  forEach l statusCount_order h
  = set_statusCount (fold_left statusCount_step l (statusCount h)) h.
Proof.
  apply (forEach_fold statusCount set_statusCount) with
    (g := fun _ => statusCount_step);
    try lens.
  all: intros; apply statusCount_order_step.
Qed.

(** What a run computes, and what it leaves of the snapshot. *)
Lemma fetchAnalytics_run (now daysAgo : Z) (s : Snapshot) :
  fetchAnalytics toLocaleDateString Date_parse now daysAgo s
  = let filtered := filteredOrders now daysAgo (orders s) in
    let revenue :=
      fold_left (fun sum order => sum + JS.or_zero (Order.totalAmount order))
        filtered 0 in
    let n := Z.of_nat (length filtered) in
    (mkAnalyticsData revenue n
       (if 0 <? n then JS.div revenue n else Some 0%Q)
       (JS.slice_first 5
          (JS.sort byRevenue (JS.Object_values (productSales_of filtered))))
       (map (fun e => CategoryRevenue.mk (fst e) (snd e))
          (JS.Object_entries (categoryRevenue_of s filtered)))
       (JS.slice_last 14
          (JS.sort (byDate Date_parse)
             (map (fun e => DaySales.mk (fst e) (DayAcc.sales (snd e))
                              (DayAcc.revenue (snd e)))
                (JS.Object_entries
                   (salesByDate_of toLocaleDateString filtered)))))
       (map (fun e => StatusCount.mk (fst e) (snd e))
          (JS.Object_entries (statusCount_of filtered))),
     s).
Proof.
  unfold fetchAnalytics.
  rewrite run_productSales, run_categoryRevenue, run_salesByDate,
    run_statusCount.
  reflexivity.
Qed.

End Run.

(** ** Sums *)

Lemma sumZ_perm (l1 l2 : list Z) : Permutation l1 l2 -> sumZ l1 = sumZ l2.
Proof. induction 1; simpl; lia. Qed.

Lemma sumZ_ones {A} (l : list A) : sumZ (map (fun _ => 1) l) = Z.of_nat (length l).
Proof.
  unfold sumZ. induction l as [|x l IH]; cbn [map fold_right length]; lia.
Qed.

Lemma filter_perm {A} (f : A -> bool) (l1 l2 : list A) :
  Permutation l1 l2 -> Permutation (filter f l1) (filter f l2).
Proof.
  induction 1 as [|x l1 l2 H IH|x y l|l1 l2 l3 H1 IH1 H2 IH2]; simpl.
  - constructor.
  - destruct (f x); [now constructor | assumption].
  - destruct (f x), (f y); try reflexivity. apply perm_swap.
  - now transitivity (filter f l2).
Qed.

(** The value shown for a key by the entries of a dictionary. *)
Lemma entries_value (o : JS.obj Z) (k : string) :
  NoDup (JS.keys o) ->
  sumZ (map snd (filter (fun e => String.eqb (fst e) k) (JS.Object_entries o)))
  = JS.or_zero (JS.get o k).
Proof.
  intros Hnd.
  rewrite (sumZ_perm _ (map snd (filter (fun e => String.eqb (fst e) k) o))).
  2:{ apply Permutation_map, filter_perm, Object_entries_perm. }
  induction o as [|[k' v] o IH]; simpl; [reflexivity|].
  inversion Hnd as [|? ? Hnotin Hnd']; subst.
  destruct (String.eqb_spec k' k) as [->|Hne]; simpl.
  - apply get_None_iff in Hnotin. rewrite IH, Hnotin by assumption. simpl. lia.
  - now apply IH.
Qed.

(** ** Totals of a group-by accumulator *)

Section GroupSum.

Context {X V : Type}.
Variables (key : X -> string) (init : X -> V) (upd : X -> V -> V).
Variables (m : V -> Z) (w : X -> Z).
Hypothesis m_init : forall x, m (init x) = 0.
Hypothesis m_upd : forall x v, m (upd x v) = m v + w x.

Lemma measure_set (o : JS.obj V) (k : string) (v : V) :
  sumZ (map (fun e => m (snd e)) (JS.set o k v))
  = sumZ (map (fun e => m (snd e)) o)
    - match JS.get o k with Some a => m a | None => 0 end + m v.
Proof.
  induction o as [|[k' a] o IH]; simpl; [lia|].
  destruct (String.eqb k' k); simpl; [lia|]. rewrite IH. lia.
Qed.

(** A field that every update increases by [w] sums, over the groups, to
    the sum of [w] over the elements. *)
Lemma group_sum (xs : list X) (o : JS.obj V) :
  sumZ (map (fun e => m (snd e)) (fold_left (group_step key init upd) xs o))
  = sumZ (map (fun e => m (snd e)) o) + sumZ (map w xs).
Proof.
  revert o. induction xs as [|x xs IH]; intros o; simpl; [lia|].
  rewrite IH. unfold group_step. rewrite measure_set, m_upd.
  destruct (JS.get o (key x)); [|rewrite m_init]; lia.
Qed.

End GroupSum.

(** ** The window *)


(** ** The report *)

Section Claims.

Variable toLocaleDateString : Z -> string.
Variable Date_parse : string -> option Z.

Abbreviation fetch := (fetchAnalytics toLocaleDateString Date_parse).
Abbreviation run := (report toLocaleDateString Date_parse).

(** C6: the average order value is the total revenue divided by the number
    of orders when there is at least one order, and [0] when there is none;
    it is never the non-finite result of a division by zero. *)
Theorem averageOrderValue_guarded (now daysAgo : Z) (s : Snapshot) :
  let r := run now daysAgo s in
  (0 < totalOrders r ->
   averageOrderValue r
   = Some (inject_Z (totalRevenue r) / inject_Z (totalOrders r))%Q)
  /\ (totalOrders r = 0 -> averageOrderValue r = Some 0%Q)
  /\ 0 <= totalOrders r
  /\ averageOrderValue r <> None.
Proof.
  unfold report. rewrite fetchAnalytics_run. cbn [fst].
  cbn [totalOrders totalRevenue averageOrderValue].
  set (n := Z.of_nat _). set (rev := fold_left _ _ _).
  assert (Hn : 0 <= n) by (unfold n; lia).
  unfold JS.div.
  destruct (Z.ltb_spec 0 n) as [Hpos|Hzero];
    destruct (Z.eqb_spec n 0) as [Hz|Hnz]; repeat split;
    try lia; try discriminate; intros; try lia; reflexivity.
Qed.

(** C9: a run leaves the three collections of the snapshot, and with them
    the line items of every order, as it found them. *)
Theorem snapshot_unchanged (now daysAgo : Z) (s : Snapshot) :
  let s' := snd (fetch now daysAgo s) in
  orders s' = orders s
  /\ products s' = products s
  /\ categories s' = categories s
  /\ map Order.products (orders s') = map Order.products (orders s).
Proof.
  rewrite fetchAnalytics_run. cbn [snd]. repeat split.
Qed.

Lemma statusCount_NoDup (l : list Order.t) : NoDup (JS.keys (statusCount_of l)).
Proof. apply group_NoDup. constructor. Qed.

Lemma statusCount_get (l : list Order.t) (k : string) :
  JS.or_zero (JS.get (statusCount_of l) k)
  = Z.of_nat (length (filter (fun o => String.eqb (statusKey o) k) l)).
Proof.
  unfold statusCount_of, statusCount_step. rewrite count_get.
  destruct (filter _ l) as [|o l'] eqn:E; [reflexivity|].
  cbn [JS.or_zero]. apply sumZ_ones.
Qed.

Lemma countFor_entries (o : JS.obj Z) (k : string) :
  NoDup (JS.keys o) ->
  Spec.countFor k (map (fun e => StatusCount.mk (fst e) (snd e))
                     (JS.Object_entries o))
  = JS.or_zero (JS.get o k).
Proof.
  intros Hnd. rewrite <- entries_value by assumption.
  unfold Spec.countFor. f_equal.
  induction (JS.Object_entries o) as [|e l IH]; simpl; [reflexivity|].
  destruct (String.eqb (fst e) k); simpl; now rewrite IH.
Qed.



(** C8, as the code has it: the report is a function of the snapshot, the
    window and the clock reading; two runs whose clock readings admit the
    same orders into the window build the same report. *)
Theorem report_same_window (now1 now2 daysAgo : Z) (s : Snapshot) :
  (forall order, In order (orders s) ->
     (cutoffDate now1 daysAgo <= orderDate order
      <-> cutoffDate now2 daysAgo <= orderDate order)) ->
  run now1 daysAgo s = run now2 daysAgo s.
Proof.
  intros H. unfold report. rewrite !fetchAnalytics_run.
  assert (E : filteredOrders now1 daysAgo (orders s)
              = filteredOrders now2 daysAgo (orders s)).
  { apply filter_ext_in. intros order Hin. specialize (H order Hin).
    destruct (Z.leb_spec (cutoffDate now1 daysAgo) (orderDate order));
      destruct (Z.leb_spec (cutoffDate now2 daysAgo) (orderDate order));
      try reflexivity; lia. }
  now rewrite E.
Qed.

Lemma booked_under (s : Snapshot) (k : string) (items : list Item.t) :
  map snd (filter (fun e => String.eqb (fst e) k) (booked s items))
  = map itemRevenue (Spec.bookedUnder s k items).
Proof.
  unfold booked, Spec.bookedUnder.
  induction items as [|item items IH]; simpl; [reflexivity|].
  destruct (categoryName s item) as [n|]; simpl; [|assumption].
  destruct (String.eqb n k); simpl; now rewrite IH.
Qed.

Lemma booked_total (s : Snapshot) (items : list Item.t) :
  sumZ (map snd (booked s items))
  = Spec.lineItemRevenue (Spec.resolved s items).
Proof.
  unfold booked, Spec.resolved, Spec.lineItemRevenue.
  induction items as [|item items IH]; simpl; [reflexivity|].
  destruct (categoryName s item) as [n|]; simpl; now rewrite IH.
Qed.

Lemma categoryRevenue_NoDup (s : Snapshot) (l : list Order.t) :
  NoDup (JS.keys (categoryRevenue_of s l)).
Proof. apply group_NoDup. constructor. Qed.

Lemma categoryRevenue_get (s : Snapshot) (l : list Order.t) (k : string) :
  JS.get (categoryRevenue_of s l) k
  = match Spec.bookedUnder s k (allItems l) with
    | [] => None
    | mine => Some (Spec.lineItemRevenue mine)
    end.
Proof.
  unfold categoryRevenue_of, categoryRevenue_step. rewrite count_get.
  assert (H := booked_under s k (allItems l)).
  destruct (filter _ (booked s (allItems l))) as [|e es];
    destruct (Spec.bookedUnder s k (allItems l)) as [|i rest];
    try discriminate; [reflexivity|].
  unfold Spec.lineItemRevenue. now rewrite <- H.
Qed.


Lemma productSales_NoDup (l : list Order.t) : NoDup (JS.keys (productSales_of l)).
Proof. apply group_NoDup. constructor. Qed.

Lemma productSales_keys (l : list Order.t) :
  JS.keys (productSales_of l)
  = Spec.first_occurrences (map Item.productId (allItems l)).
Proof. apply group_keys. Qed.

Lemma productSales_revenue (l : list Order.t) :
  sumZ (map TopProduct.revenue (JS.Object_values (productSales_of l)))
  = Spec.lineItemRevenue (allItems l).
Proof.
  unfold JS.Object_values. rewrite map_map.
  rewrite (sumZ_perm _ _
             (Permutation_map (fun e => TopProduct.revenue (snd e))
                (Object_entries_perm _))).
  unfold productSales_of, productSales_step.
  rewrite group_sum with (w := itemRevenue); reflexivity.
Qed.


Lemma values_by_keys {V} (o : JS.obj V) :
  NoDup (JS.keys o) ->
  map (fun e => Some (snd e)) o = map (JS.get o) (JS.keys o).
Proof.
  induction o as [|[k v] o IH]; intros Hnd; simpl; [reflexivity|].
  inversion Hnd as [|? ? Hnotin Hnd']; subst.
  rewrite String.eqb_refl. f_equal.
  rewrite IH by assumption. apply map_ext_in. intros k' Hk'.
  destruct (String.eqb_spec k k') as [->|Hne]; [contradiction | reflexivity].
Qed.

Lemma regroup_productSales (l : list Item.t) (e : TopProduct.t) :
  fold_left
    (regroup (fun item => TopProduct.mk (Item.name item) 0 0)
       (fun item e => TopProduct.mk (TopProduct.name e)
                        (TopProduct.sales e + Item.quantity item)
                        (TopProduct.revenue e + itemRevenue item)))
    l (Some e)
  = Some (TopProduct.mk (TopProduct.name e)
            (TopProduct.sales e + sumZ (map Item.quantity l))
            (TopProduct.revenue e + sumZ (map itemRevenue l))).
Proof.
  revert e. induction l as [|i l IH]; intros [n q r]; simpl.
  - now rewrite !Z.add_0_r.
  - unfold regroup at 2. rewrite IH. simpl. now rewrite !Z.add_assoc.
Qed.

(** The group of a product: the name on the first of its items, the units
    and the revenue of all of them. *)
Lemma productSales_get (l : list Order.t) (k : string) :
  JS.get (productSales_of l) k
  = match filter (fun i => String.eqb (Item.productId i) k) (allItems l) with
    | [] => None
    | (i :: _) as mine =>
        Some (TopProduct.mk (Item.name i) (sumZ (map Item.quantity mine))
                (sumZ (map itemRevenue mine)))
    end.
Proof.
  unfold productSales_of, productSales_step. rewrite group_get. simpl JS.get.
  destruct (filter _ (allItems l)) as [|i mine]; [reflexivity|].
  simpl fold_left. unfold regroup at 2. rewrite regroup_productSales.
  unfold sumZ. cbn [TopProduct.name TopProduct.sales TopProduct.revenue
                    map fold_right].
  do 2 f_equal; lia.
Qed.

Lemma productSales_groups (l : list Order.t) :
  map snd (productSales_of l) = Spec.groups (allItems l).
Proof.
  assert (H := values_by_keys (productSales_of l) (productSales_NoDup l)).
  rewrite productSales_keys in H.
  assert (E : map Some (map snd (productSales_of l))
              = map Some (Spec.groups (allItems l))).
  { rewrite map_map, H. unfold Spec.groups. rewrite map_map.
    apply map_ext_in. intros k Hk. rewrite productSales_get.
    apply first_occurrences_In, in_map_iff in Hk as [item [Hid Hitem]].
    destruct (filter _ (allItems l)) as [|i mine] eqn:E; [|reflexivity].
    assert (Hin : In item (filter (fun i => String.eqb (Item.productId i) k)
                             (allItems l))).
    { apply filter_In. split; [assumption|]. now apply String.eqb_eq. }
    rewrite E in Hin. contradiction. }
  revert E. generalize (Spec.groups (allItems l)) as g.
  induction (map snd (productSales_of l)) as [|x xs IH]; intros [|y ys];
    simpl; try discriminate; [reflexivity|].
  intros [= -> E]. f_equal. now apply IH.
Qed.

Lemma In_firstn {A} (n : nat) (l : list A) (x : A) :
  In x (firstn n l) -> In x l.
Proof.
  intros H. rewrite <- (firstn_skipn n l). apply in_or_app. now left.
Qed.

Lemma In_skipn {A} (n : nat) (l : list A) (x : A) :
  In x (skipn n l) -> In x l.
Proof.
  intros H. rewrite <- (firstn_skipn n l). apply in_or_app. now right.
Qed.

Lemma firstn_sorted {A} (R : A -> A -> Prop) (n : nat) (l : list A) :
  StronglySorted R l -> StronglySorted R (firstn n l).
Proof.
  intros H. revert n. induction H as [|x l Hl IH Hx]; intros [|n]; simpl;
    try constructor; [apply IH|].
  rewrite Forall_forall in *. intros y Hy. apply Hx.
  eapply In_firstn; eassumption.
Qed.

Lemma sorted_weaken {A} (R R' : A -> A -> Prop) (l : list A) :
  (forall a b, R a b -> R' a b) -> StronglySorted R l -> StronglySorted R' l.
Proof.
  intros HR. induction 1 as [|x l Hl IH Hx]; constructor; [assumption|].
  rewrite Forall_forall in *. auto.
Qed.

Lemma byRevenue_key (l : list TopProduct.t) :
  JS.sort byRevenue l = JS.sort (byKey (fun e => - TopProduct.revenue e)) l.
Proof. apply sort_ext. intros. unfold byRevenue, byKey. lia. Qed.


(** ** The daily series *)

Lemma regroup_salesByDate (l : list Order.t) (e : DayAcc.t) :
  fold_left
    (regroup (fun _ : Order.t => DayAcc.mk 0 0)
       (fun order e =>
          DayAcc.mk (DayAcc.sales e + 1)
            (DayAcc.revenue e + JS.or_zero (Order.totalAmount order))))
    l (Some e)
  = Some (DayAcc.mk (DayAcc.sales e + Z.of_nat (length l))
            (DayAcc.revenue e + Spec.amounts l)).
Proof.
  unfold Spec.amounts, sumZ.
  revert e. induction l as [|o l IH]; intros [n r].
  - simpl. now rewrite !Z.add_0_r.
  - cbn [fold_left]. unfold regroup at 2. rewrite IH.
    cbn [DayAcc.sales DayAcc.revenue map fold_right length].
    f_equal. f_equal; lia.
Qed.

Lemma salesByDate_get (l : list Order.t) (k : string) :
  JS.get (salesByDate_of toLocaleDateString l) k
  = match filter (fun o => String.eqb (dateKey toLocaleDateString o) k) l with
    | [] => None
    | mine => Some (DayAcc.mk (Z.of_nat (length mine)) (Spec.amounts mine))
    end.
Proof.
  unfold salesByDate_of, salesByDate_step. rewrite group_get. simpl JS.get.
  destruct (filter _ l) as [|o mine]; [reflexivity|].
  cbn [fold_left]. unfold regroup at 2. rewrite regroup_salesByDate.
  unfold Spec.amounts, sumZ.
  cbn [DayAcc.sales DayAcc.revenue map fold_right length].
  f_equal. f_equal; lia.
Qed.

Lemma salesByDate_NoDup (l : list Order.t) :
  NoDup (JS.keys (salesByDate_of toLocaleDateString l)).
Proof. apply group_NoDup. constructor. Qed.

Lemma localDay_startOfDay (tz d : Z) : Spec.localDay tz (Spec.startOfDay tz d) = d.
Proof.
  unfold Spec.localDay, Spec.startOfDay.
  replace (d * msPerDay - tz + tz) with (d * msPerDay) by lia.
  apply Z.div_mul. discriminate.
Qed.

Lemma NoDup_map_eq {A B} (f : A -> B) (l : list A) (a b : A) :
  NoDup (map f l) -> In a l -> In b l -> f a = f b -> a = b.
Proof.
  induction l as [|x l IH]; simpl; [tauto|].
  intros Hnd Ha Hb E. inversion Hnd as [|? ? Hnotin Hnd']; subst.
  destruct Ha as [->|Ha], Hb as [->|Hb]; auto.
  - exfalso. apply Hnotin. rewrite E. now apply in_map.
  - exfalso. apply Hnotin. rewrite <- E. now apply in_map.
Qed.

Lemma sorted_weaken_in {A} (R R' : A -> A -> Prop) (l : list A) :
  (forall a b, In a l -> In b l -> R a b -> R' a b) ->
  StronglySorted R l -> StronglySorted R' l.
Proof.
  intros HR H. induction H as [|x l Hl IH Hx]; constructor.
  - apply IH. intros a b Ha Hb. apply HR; now right.
  - rewrite Forall_forall in *. intros y Hy.
    apply HR; [now left | now right | now apply Hx].
Qed.

Lemma skipn_sorted {A} (R : A -> A -> Prop) (n : nat) (l : list A) :
  StronglySorted R l -> StronglySorted R (skipn n l).
Proof.
  intros H. revert n. induction H as [|x l Hl IH Hx]; intros [|n]; simpl;
    try constructor; auto.
Qed.

Lemma sorted_app_inv {A} (R : A -> A -> Prop) (l1 l2 : list A) (a b : A) :
  StronglySorted R (l1 ++ l2) -> In a l1 -> In b l2 -> R a b.
Proof.
  induction l1 as [|x l1 IH]; simpl; [tauto|].
  intros H [->|Ha] Hb; inversion H as [|? ? Hl Hx]; subst.
  - rewrite Forall_forall in Hx. apply Hx, in_or_app. now right.
  - now apply IH.
Qed.

Section Buckets.

Variables (tz : Z) (l : list Order.t).
Hypothesis reads_back :
  Spec.readsBack tz toLocaleDateString Date_parse l = true.

Lemma dated (o : Order.t) :
  In o l ->
  exists t,
    Order.createdAt o = Some t
    /\ dateKey toLocaleDateString o = toLocaleDateString t
    /\ Date_parse (toLocaleDateString t)
       = Some (Spec.startOfDay tz (Spec.localDay tz t)).
Proof.
  intros Hin. pose proof reads_back as H.
  unfold Spec.readsBack in H. rewrite forallb_forall in H.
  specialize (H o Hin). unfold dateKey, JS.or_string.
  destruct (Order.createdAt o) as [t|]; [|discriminate].
  apply andb_prop in H as [H _]. apply andb_prop in H as [H1 H2].
  exists t. split; [reflexivity|]. split.
  - simpl. now destruct (String.eqb (toLocaleDateString t) "").
  - destruct (Date_parse _) as [p|]; [|discriminate].
    apply Z.eqb_eq in H2. now subst.
Qed.

Lemma same_day (o o' : Order.t) (t t' : Z) :
  In o l -> In o' l ->
  Order.createdAt o = Some t -> Order.createdAt o' = Some t' ->
  (toLocaleDateString t = toLocaleDateString t'
   <-> Spec.localDay tz t = Spec.localDay tz t').
Proof.
  intros Ho Ho' E E'. split.
  - intros Heq.
    destruct (dated o Ho) as [t0 [E0 [_ P]]].
    destruct (dated o' Ho') as [t0' [E0' [_ P']]].
    rewrite E in E0. injection E0 as <-.
    rewrite E' in E0'. injection E0' as <-.
    rewrite Heq, P' in P. injection P as HS.
    apply (f_equal (Spec.localDay tz)) in HS.
    now rewrite !localDay_startOfDay in HS.
  - intros Hday. pose proof reads_back as H.
    unfold Spec.readsBack in H. rewrite forallb_forall in H.
    specialize (H o Ho). rewrite E in H.
    apply andb_prop in H as [_ H]. rewrite forallb_forall in H.
    specialize (H o' Ho'). rewrite E' in H.
    apply Z.eqb_eq in Hday. rewrite Hday in H. simpl in H.
    now apply String.eqb_eq.
Qed.

Lemma key_orders (o : Order.t) (t : Z) :
  In o l -> Order.createdAt o = Some t ->
  filter (fun o' => String.eqb (dateKey toLocaleDateString o')
                      (toLocaleDateString t)) l
  = Spec.ordersOn tz (Spec.localDay tz t) l.
Proof.
  intros Ho E. unfold Spec.ordersOn. apply filter_ext_in. intros o' Ho'.
  destruct (dated o' Ho') as [t' [E' [K' _]]]. rewrite K', E'.
  destruct (String.eqb_spec (toLocaleDateString t') (toLocaleDateString t))
    as [Heq|Hne];
    destruct (Z.eqb_spec (Spec.localDay tz t') (Spec.localDay tz t))
      as [Hd|Hd]; try reflexivity.
  - apply (same_day o' o t' t) in Heq; auto; contradiction.
  - apply (same_day o' o t' t) in Hd; auto; contradiction.
Qed.

Let entries : list DaySales.t :=
  map toDaySales (JS.Object_entries (salesByDate_of toLocaleDateString l)).

Let full : list DaySales.t := JS.sort (byDate Date_parse) entries.

Lemma entry_inv (b : DaySales.t) :
  In b entries ->
  exists o t,
    In o l /\ Order.createdAt o = Some t
    /\ DaySales.date b = toLocaleDateString t
    /\ DaySales.sales b
       = Z.of_nat (length (Spec.ordersOn tz (Spec.localDay tz t) l))
    /\ DaySales.revenue b
       = Spec.amounts (Spec.ordersOn tz (Spec.localDay tz t) l).
Proof.
  unfold entries. intros Hb. apply in_map_iff in Hb as [[k acc] [<- Hin]].
  apply Object_entries_In in Hin; [|apply salesByDate_NoDup].
  rewrite salesByDate_get in Hin.
  destruct (filter _ l) as [|o mine] eqn:F; [discriminate|].
  assert (Ho : In o (filter (fun o => String.eqb
                               (dateKey toLocaleDateString o) k) l))
    by (rewrite F; now left).
  apply filter_In in Ho as [Ho Hk]. apply String.eqb_eq in Hk. subst k.
  destruct (dated o Ho) as [t [E [K _]]].
  rewrite K in F. rewrite (key_orders o t Ho E) in F.
  exists o, t. injection Hin as <-. rewrite F.
  repeat split; try assumption.
Qed.

Lemma entry_for (o : Order.t) (t : Z) :
  In o l -> Order.createdAt o = Some t ->
  exists b, In b entries /\ DaySales.date b = toLocaleDateString t.
Proof.
  intros Ho E. destruct (dated o Ho) as [t0 [E0 [K _]]].
  rewrite E in E0. injection E0 as <-.
  destruct (JS.get (salesByDate_of toLocaleDateString l)
              (toLocaleDateString t)) as [acc|] eqn:G.
  - exists (toDaySales (toLocaleDateString t, acc)). split; [|reflexivity].
    unfold entries. apply in_map.
    apply Object_entries_In; [apply salesByDate_NoDup | exact G].
  - exfalso. rewrite salesByDate_get in G.
    destruct (filter _ l) as [|x xs] eqn:F; [|discriminate].
    assert (Hin : In o (filter (fun o => String.eqb
                                  (dateKey toLocaleDateString o)
                                  (toLocaleDateString t)) l)).
    { apply filter_In. split; [assumption|]. rewrite K.
      apply String.eqb_refl. }
    rewrite F in Hin. contradiction.
Qed.

Lemma entry_day (b : DaySales.t) (o : Order.t) (t : Z) :
  In o l -> Order.createdAt o = Some t ->
  DaySales.date b = toLocaleDateString t ->
  Spec.bucketDay tz Date_parse b = Spec.localDay tz t
  /\ dateTime Date_parse b = Spec.startOfDay tz (Spec.localDay tz t).
Proof.
  intros Ho E D. destruct (dated o Ho) as [t0 [E0 [_ P]]].
  rewrite E in E0. injection E0 as <-.
  unfold Spec.bucketDay, dateTime. rewrite D, P.
  split; [apply localDay_startOfDay | reflexivity].
Qed.

Lemma entries_dates_NoDup : NoDup (map DaySales.date entries).
Proof.
  unfold entries. rewrite map_map. cbn [toDaySales DaySales.date].
  apply (Permutation_NoDup
           (l := JS.keys (salesByDate_of toLocaleDateString l))).
  - symmetry. apply Permutation_map, Object_entries_perm.
  - apply salesByDate_NoDup.
Qed.

Lemma entries_days_NoDup :
  NoDup (map (Spec.bucketDay tz Date_parse) entries).
Proof.
  apply NoDup_map_NoDup_ForallPairs;
    [|apply (NoDup_map_inv DaySales.date), entries_dates_NoDup].
  intros b1 b2 H1 H2 Hd.
  destruct (entry_inv b1 H1) as [o1 [t1 [Ho1 [E1 [D1 _]]]]].
  destruct (entry_inv b2 H2) as [o2 [t2 [Ho2 [E2 [D2 _]]]]].
  destruct (entry_day b1 o1 t1 Ho1 E1 D1) as [B1 _].
  destruct (entry_day b2 o2 t2 Ho2 E2 D2) as [B2 _].
  rewrite B1, B2 in Hd.
  apply (NoDup_map_eq DaySales.date entries); auto using entries_dates_NoDup.
  rewrite D1, D2. now apply (same_day o1 o2 t1 t2).
Qed.

Lemma full_perm : Permutation full entries.
Proof. apply sort_perm. Qed.

Lemma full_byKey : full = JS.sort (byKey (dateTime Date_parse)) entries.
Proof.
  apply sort_ext. intros a b Ha Hb. unfold byDate, byKey, dateTime.
  destruct (entry_inv a Ha) as [oa [ta [Hoa [Ea [Da _]]]]].
  destruct (entry_inv b Hb) as [ob [tb [Hob [Eb [Db _]]]]].
  destruct (dated oa Hoa) as [t0 [E0 [_ Pa]]].
  rewrite Ea in E0. injection E0 as <-.
  destruct (dated ob Hob) as [t0 [E0 [_ Pb]]].
  rewrite Eb in E0. injection E0 as <-.
  now rewrite Da, Db, Pa, Pb.
Qed.

Lemma full_ascending : Spec.ascending tz Date_parse full.
Proof.
  unfold Spec.ascending. apply sorted_le_NoDup_lt.
  - apply sorted_map. rewrite full_byKey.
    eapply sorted_weaken_in; [|apply sort_sorted].
    intros a b Ha Hb Hle.
    apply (Permutation_in _ (sort_perm _ _)) in Ha, Hb.
    destruct (entry_inv a Ha) as [oa [ta [Hoa [Ea [Da _]]]]].
    destruct (entry_inv b Hb) as [ob [tb [Hob [Eb [Db _]]]]].
    destruct (entry_day a oa ta Hoa Ea Da) as [-> Ta].
    destruct (entry_day b ob tb Hob Eb Db) as [-> Tb].
    cbv beta in Hle. rewrite Ta, Tb in Hle.
    unfold Spec.startOfDay, msPerDay in Hle. lia.
  - apply (Permutation_NoDup
             (l := map (Spec.bucketDay tz Date_parse) entries)).
    + symmetry. apply Permutation_map, full_perm.
    + apply entries_days_NoDup.
Qed.

Lemma series_ascending :
  Spec.ascending tz Date_parse (JS.slice_last 14 full).
Proof.
  unfold Spec.ascending, JS.slice_last. rewrite <- skipn_map.
  apply skipn_sorted, full_ascending.
Qed.

Lemma full_entries (b : DaySales.t) : In b full <-> In b entries.
Proof.
  split; apply Permutation_in; [|symmetry]; apply full_perm.
Qed.

Lemma order_on_its_day (o : Order.t) (t : Z) :
  In o l -> Order.createdAt o = Some t ->
  In o (Spec.ordersOn tz (Spec.localDay tz t) l).
Proof.
  intros Ho E. apply filter_In. split; [assumption|].
  rewrite E. apply Z.eqb_refl.
Qed.

(** Each bucket of the series is a day on which orders were placed, with
    the number and the amounts of that day's orders. *)
Lemma series_buckets (b : DaySales.t) :
  In b (JS.slice_last 14 full) ->
  let day := Spec.ordersOn tz (Spec.bucketDay tz Date_parse b) l in
  day <> []
  /\ DaySales.sales b = Z.of_nat (length day)
  /\ DaySales.revenue b = Spec.amounts day
  /\ (forall o t, In o day -> Order.createdAt o = Some t ->
                  DaySales.date b = toLocaleDateString t).
Proof.
  intros Hb. apply In_skipn, full_entries in Hb.
  destruct (entry_inv b Hb) as [o [t [Ho [E [D [S R]]]]]].
  destruct (entry_day b o t Ho E D) as [-> _]. cbv zeta.
  split; [|split; [|split]]; try assumption.
  - intros Hnil. pose proof (order_on_its_day o t Ho E) as Hin.
    rewrite Hnil in Hin. contradiction.
  - intros o' t' Ho' E'. apply filter_In in Ho' as [Ho' Hd].
    rewrite E' in Hd. apply Z.eqb_eq in Hd. rewrite D.
    now apply (same_day o o' t t').
Qed.

(** A day with orders is in the series, or the series is full and the day
    is older than all of it. *)
Lemma series_recent (o : Order.t) (t : Z) :
  In o l -> Order.createdAt o = Some t ->
  (exists b, In b (JS.slice_last 14 full)
             /\ Spec.bucketDay tz Date_parse b = Spec.localDay tz t)
  \/ (length (JS.slice_last 14 full) = 14%nat
      /\ forall b, In b (JS.slice_last 14 full) ->
                   Spec.localDay tz t < Spec.bucketDay tz Date_parse b).
Proof.
  intros Ho E. destruct (entry_for o t Ho E) as [b [Hb D]].
  destruct (entry_day b o t Ho E D) as [B _].
  apply full_entries in Hb. unfold JS.slice_last.
  set (n := (length full - 14)%nat).
  rewrite <- (firstn_skipn n full) in Hb.
  apply in_app_or in Hb as [Hb|Hb].
  - right. split.
    + rewrite length_skipn. unfold n.
      assert (n <> 0%nat) by (intros Hn; rewrite Hn in Hb; contradiction).
      unfold n in *. lia.
    + intros b' Hb'. rewrite <- B.
      pose proof full_ascending as Hs. unfold Spec.ascending in Hs.
      rewrite <- (firstn_skipn n full), map_app in Hs.
      apply (sorted_app_inv _ _ _ _ _ Hs); now apply in_map.
  - left. now exists b.
Qed.

(** The series has as many buckets as there are days with orders, up to
    fourteen. *)
Lemma series_length (days : list Z) :
  NoDup days ->
  (forall d, In d days <-> Spec.ordersOn tz d l <> []) ->
  length (JS.slice_last 14 full) = Nat.min 14 (length days).
Proof.
  intros Hnd Hdays.
  assert (Hlen : length full = length days).
  { rewrite (Permutation_length full_perm).
    rewrite <- (length_map (Spec.bucketDay tz Date_parse)).
    apply Permutation_length, NoDup_Permutation;
      [apply entries_days_NoDup | assumption |].
    intros d. rewrite Hdays, in_map_iff. split.
    - intros [b [<- Hb]].
      destruct (entry_inv b Hb) as [o [t [Ho [E [D _]]]]].
      destruct (entry_day b o t Ho E D) as [-> _].
      intros Hnil. pose proof (order_on_its_day o t Ho E) as Hin.
      rewrite Hnil in Hin. contradiction.
    - intros Hne. destruct (Spec.ordersOn tz d l) as [|o rest] eqn:F;
        [contradiction|].
      assert (Ho : In o (Spec.ordersOn tz d l)) by (rewrite F; now left).
      apply filter_In in Ho as [Ho Hd].
      destruct (Order.createdAt o) as [t|] eqn:E; [|discriminate].
      apply Z.eqb_eq in Hd.
      destruct (entry_for o t Ho E) as [b [Hb D]].
      destruct (entry_day b o t Ho E D) as [B _].
      exists b. split; [congruence | assumption]. }
  unfold JS.slice_last. rewrite length_skipn, Hlen. lia.
Qed.

End Buckets.


End Claims.

(** ** The report on the sample snapshots *)

(** Scenario A of the specification. *)
Example scenarioA :
  let order :=
    Order.mk (Some Sample.now) (Some 100) (Some "Pending")
      (Some [Item.mk "p1" "Shirt" 50 2]) in
  let r := Sample.run Sample.now 30 (mkSnapshot [order] [] []) in
  totalRevenue r = 100 /\ totalOrders r = 1
  /\ averageOrderValue r = Some (100 # 1)
  /\ topProducts r = [TopProduct.mk "Shirt" 2 100]
  /\ ordersByStatus r = [StatusCount.mk "Pending" 1].
Proof. vm_compute. repeat split. Qed.

(** Scenario C of the specification. *)
Example scenarioC :
  let order amount :=
    Order.mk (Some (Sample.now - 3600000)) (Some amount) (Some "Paid") None in
  salesOverTime
    (Sample.run Sample.now 30 (mkSnapshot [order 50; order 30] [] []))
  = [DaySales.mk "2/5/2024" 2 80].
Proof. vm_compute. reflexivity. Qed.

(** Scenario E of the specification. *)
Example scenarioE :
  ordersByStatus
    (Sample.run Sample.now 30
       (mkSnapshot [Order.mk (Some Sample.now) (Some 10) None None] [] []))
  = [StatusCount.mk "Unknown" 1].
Proof. vm_compute. reflexivity. Qed.

(** Two spellings of one status are two buckets. *)
Example casings_apart :
  let order st := Order.mk (Some Sample.now) (Some 10) (Some st) None in
  ordersByStatus
    (Sample.run Sample.now 30
       (mkSnapshot [order "Pending"; order "pending"; order "Pending"] [] []))
  = [StatusCount.mk "Pending" 2; StatusCount.mk "pending" 1].
Proof. vm_compute. reflexivity. Qed.

(** Scenario D of the specification. *)
Example scenarioD :
  length (salesOverTime (Sample.run Sample.now 90 Sample.twentyDays)) = 14%nat.
Proof. vm_compute. reflexivity. Qed.






(** The same snapshot and window, a week apart: the reports differ. *)
Lemma clock_changes_report :
  Sample.run Sample.now 7 Sample.scenarioB
  <> Sample.run (Sample.now + 8 * msPerDay) 7 Sample.scenarioB.
Proof.
  intros H. apply (f_equal totalOrders) in H. vm_compute in H. discriminate H.
Qed.

Lemma report_same_window_witness :
  Sample.run Sample.now 7 Sample.scenarioB
  = Sample.run (Sample.now + 1) 7 Sample.scenarioB.
Proof.
  apply report_same_window. intros order [<-|[]].
  vm_compute. split; intros _ H; discriminate H.
Defined.




(** * Further properties of the pages *)

(** ** The report *)

Lemma or_string_nonempty (v : option string) (d : string) :
  d <> "" -> JS.or_string v d <> "".
Proof.
  intros Hd. unfold JS.or_string. destruct v as [s|]; [|assumption].
  destruct (String.eqb_spec s ""); assumption.
Qed.

Lemma fold_left_sum {A} (f : A -> Z) (l : list A) (a : Z) :
  fold_left (fun sum x => sum + f x) l a = a + sumZ (map f l).
Proof.
  revert a. induction l as [|x l IH]; intros a; simpl; [lia|].
  rewrite IH. unfold sumZ. lia.
Qed.

Lemma sumZ_nonneg (l : list Z) : Forall (fun z => 0 <= z) l -> 0 <= sumZ l.
Proof. induction 1; simpl; lia. Qed.

Lemma filter_length_le {A} (f g : A -> bool) (l : list A) :
  (forall x, In x l -> f x = true -> g x = true) ->
  (length (filter f l) <= length (filter g l))%nat.
Proof.
  induction l as [|x l IH]; intros H; simpl; [lia|].
  assert (IH' := IH (fun y Hy => H y (or_intror Hy))).
  destruct (f x) eqn:Ef.
  - rewrite (H x (or_introl eq_refl) Ef). simpl. lia.
  - destruct (g x); simpl; lia.
Qed.

Section Report.

Variable toLocaleDateString : Z -> string.
Variable Date_parse : string -> option Z.

Abbreviation view := (report toLocaleDateString Date_parse).

(** X1: a longer window admits every order a shorter one admits, so the number
    of orders of the report grows with the window. *)
Theorem window_monotone (now daysAgo daysAgo' : Z) (s : Snapshot) :
  daysAgo <= daysAgo' ->
  (forall order, In order (filteredOrders now daysAgo (orders s)) ->
                 In order (filteredOrders now daysAgo' (orders s)))
  /\ totalOrders (view now daysAgo s) <= totalOrders (view now daysAgo' s).
Proof.
  intros Hle.
  assert (Himp : forall order,
             (cutoffDate now daysAgo <=? orderDate order) = true ->
             (cutoffDate now daysAgo' <=? orderDate order) = true).
  { intros order H. apply Z.leb_le in H. apply Z.leb_le.
    unfold cutoffDate, msPerDay in *. lia. }
  split.
  - intros order Hin. unfold filteredOrders in *.
    apply filter_In in Hin as [Hin H]. apply filter_In. auto.
  - unfold report. rewrite !fetchAnalytics_run. cbn [fst totalOrders].
    apply inj_le. unfold filteredOrders. apply filter_length_le. auto.
Qed.

(** X2: when the window admits no order, and so for a snapshot without orders,
    every figure of the report is zero and every list is empty. *)
Theorem empty_window_report (now daysAgo : Z) (s : Snapshot) :
  filteredOrders now daysAgo (orders s) = [] ->
  view now daysAgo s = mkAnalyticsData 0 0 (Some 0%Q) [] [] [] [].
Proof.
  intros H. unfold report. rewrite fetchAnalytics_run, H. reflexivity.
Qed.

Lemma series_whole (l : list Order.t) :
  (length (Spec.first_occurrences (map (dateKey toLocaleDateString) l)) <= 14)%nat ->
  Permutation
    (JS.slice_last 14
       (JS.sort (byDate Date_parse)
          (map toDaySales
             (JS.Object_entries (salesByDate_of toLocaleDateString l)))))
    (map toDaySales (salesByDate_of toLocaleDateString l)).
Proof.
  intros Hlen. unfold JS.slice_last.
  replace (length _ - 14)%nat with 0%nat.
  - simpl. rewrite sort_perm. apply Permutation_map, Object_entries_perm.
  - rewrite sort_length, length_map, Object_entries_length.
    rewrite <- (length_map fst).
    fold (JS.keys (salesByDate_of toLocaleDateString l)).
    unfold salesByDate_of, salesByDate_step. rewrite group_keys. lia.
Qed.


Lemma series_entry (l : list Order.t) (b : DaySales.t) :
  In b (JS.slice_last 14
          (JS.sort (byDate Date_parse)
             (map toDaySales
                (JS.Object_entries (salesByDate_of toLocaleDateString l))))) ->
  exists mine,
    mine <> []
    /\ mine = filter (fun o => String.eqb (dateKey toLocaleDateString o)
                                 (DaySales.date b)) l
    /\ DaySales.sales b = Z.of_nat (length mine)
    /\ DaySales.revenue b = Spec.amounts mine.
Proof.
  intros Hb. apply In_skipn in Hb.
  apply (Permutation_in _ (sort_perm _ _)) in Hb.
  apply in_map_iff in Hb as [[k acc] [<- Hin]].
  apply Object_entries_In in Hin; [|apply salesByDate_NoDup].
  rewrite salesByDate_get in Hin. cbn [toDaySales DaySales.date fst snd].
  destruct (filter _ l) as [|o mine] eqn:F; [discriminate|].
  exists (o :: mine). injection Hin as <-.
  repeat split. discriminate.
Qed.

Lemma status_entry (l : list Order.t) (k : string) (n : Z) :
  In (k, n) (JS.Object_entries (statusCount_of l)) ->
  n = Z.of_nat (length (filter (fun o => String.eqb (statusKey o) k) l))
  /\ In k (map statusKey l).
Proof.
  intros Hin. apply Object_entries_In in Hin; [|apply statusCount_NoDup].
  split.
  - rewrite <- statusCount_get, Hin. reflexivity.
  - apply first_occurrences_In.
    unfold statusCount_of, statusCount_step, count_step in *.
    rewrite <- (group_keys statusKey (fun _ => 0) (fun _ v => v + 1)).
    apply get_Some_In in Hin. unfold JS.keys.
    change k with (fst (k, n)). now apply in_map.
Qed.


Lemma category_entry (sn : Snapshot) (l : list Order.t) (k : string) (v : Z) :
  In (k, v) (JS.Object_entries (categoryRevenue_of sn l)) ->
  v = Spec.lineItemRevenue (Spec.bookedUnder sn k (allItems l))
  /\ exists item, In item (allItems l) /\ categoryName sn item = Some k.
Proof.
  intros Hin. apply Object_entries_In in Hin; [|apply categoryRevenue_NoDup].
  rewrite categoryRevenue_get in Hin.
  destruct (Spec.bookedUnder sn k (allItems l)) as [|i rest] eqn:F;
    [discriminate|].
  injection Hin as <-. split; [reflexivity|].
  assert (Hi : In i (Spec.bookedUnder sn k (allItems l)))
    by (rewrite F; now left).
  apply filter_In in Hi as [Hi Hk]. exists i. split; [assumption|].
  destruct (categoryName sn i) as [n|]; [|discriminate].
  apply String.eqb_eq in Hk. now subst.
Qed.

(** X5: no entry of the report has an empty label: a category name, a date and
    a status are the text found in the documents or "Unknown". *)
Theorem report_labels_nonempty (now daysAgo : Z) (s : Snapshot) :
  let r := view now daysAgo s in
  (forall e, In e (revenueByCategory r) -> CategoryRevenue.name e <> "")
  /\ (forall b, In b (salesOverTime r) -> DaySales.date b <> "")
  /\ (forall e, In e (ordersByStatus r) -> StatusCount.status e <> "").
Proof.
  unfold report. rewrite fetchAnalytics_run.
  cbn [fst revenueByCategory salesOverTime ordersByStatus]. fold toDaySales.
  split; [|split].
  - intros e He. apply in_map_iff in He as [[k v] [<- Hin]].
    cbn [CategoryRevenue.name fst].
    apply category_entry in Hin as [_ [item [_ Hk]]].
    unfold categoryName in Hk.
    destruct (find _ (products s)); [|discriminate].
    injection Hk as <-. now apply or_string_nonempty.
  - intros b Hb. apply series_entry in Hb as [mine [Hne [Hmine _]]].
    destruct mine as [|o mine]; [contradiction|].
    assert (Ho : In o (o :: mine)) by now left.
    rewrite Hmine in Ho. apply filter_In in Ho as [_ Ho].
    apply String.eqb_eq in Ho. rewrite <- Ho.
    now apply or_string_nonempty.
  - intros e He. apply in_map_iff in He as [[k n] [<- Hin]].
    cbn [StatusCount.status fst].
    apply status_entry in Hin as [_ Hk].
    apply in_map_iff in Hk as [o [<- _]]. now apply or_string_nonempty.
Qed.

Lemma product_entry (l : list Order.t) (e : TopProduct.t) :
  In e (JS.slice_first 5
          (JS.sort byRevenue (JS.Object_values (productSales_of l)))) ->
  exists mine,
    incl mine (allItems l)
    /\ TopProduct.sales e = sumZ (map Item.quantity mine)
    /\ TopProduct.revenue e = sumZ (map itemRevenue mine).
Proof.
  intros He. apply In_firstn in He.
  apply (Permutation_in _ (sort_perm _ _)) in He.
  unfold JS.Object_values in He. apply in_map_iff in He as [[k v] [<- Hin]].
  apply Object_entries_In in Hin; [|apply productSales_NoDup].
  rewrite productSales_get in Hin.
  destruct (filter _ (allItems l)) as [|i mine] eqn:F; [discriminate|].
  injection Hin as <-. exists (i :: mine). repeat split.
  rewrite <- F. intros x Hx. now apply filter_In in Hx.
Qed.


End Report.

(** X7: every slice of the pie has one of the five colours; the colours repeat
    every five slices, and up to five slices no two share a colour. *)
Theorem fills_defined (r : AnalyticsData) :
  Forall (fun c => In c (map Some Chart.COLORS)) (Chart.fills r)
  /\ length (Chart.fills r) = length (revenueByCategory r)
  /\ (forall index, Chart.fill (index + 5) = Chart.fill index)
  /\ ((length (revenueByCategory r) <= 5)%nat -> NoDup (Chart.fills r)).
Proof.
  unfold Chart.fills. split; [|split; [|split]].
  - apply Forall_forall. intros c Hc.
    apply in_map_iff in Hc as [i [<- _]]. unfold Chart.fill.
    assert (H : (i mod length Chart.COLORS < 5)%nat)
      by (apply Nat.mod_upper_bound; discriminate).
    destruct (i mod length Chart.COLORS)%nat as [|[|[|[|[|n]]]]];
      simpl; try tauto; lia.
  - now rewrite length_map, length_seq.
  - intros index. unfold Chart.fill. f_equal.
    change (length Chart.COLORS) with 5%nat.
    rewrite <- (Nat.Div0.mod_add index 1 5). f_equal; lia.
  - intros Hlen. remember (length (revenueByCategory r)) as n eqn:E. clear E.
    do 6 (destruct n as [|n]; [vm_compute; repeat constructor;
                               simpl; intuition discriminate|]).
    lia.
Qed.

(** ** The orders page *)

Lemma byRecency_key (l : list Order.t) :
  JS.sort OrdersPage.byRecency l = JS.sort (byKey (fun o => - orderDate o)) l.
Proof. apply sort_ext. intros. unfold OrdersPage.byRecency, byKey. lia. Qed.

(** X8: the orders page lists the documents it read, all of them and nothing
    else, the most recent first, an undated order counting as placed at the
    epoch, and orders of the same instant in the order they were read. *)
Theorem fetchOrders_recent_first (ordersData : list Order.t) :
  Permutation (OrdersPage.fetchOrders ordersData) ordersData
  /\ StronglySorted (fun a b => orderDate b <= orderDate a)
       (OrdersPage.fetchOrders ordersData)
  /\ (forall t,
        filter (fun o => orderDate o =? t) (OrdersPage.fetchOrders ordersData)
        = filter (fun o => orderDate o =? t) ordersData).
Proof.
  unfold OrdersPage.fetchOrders. split; [apply sort_perm|]. split.
  - rewrite byRecency_key. eapply sorted_weaken; [|apply sort_sorted].
    simpl. intros; lia.
  - intros t. rewrite byRecency_key.
    assert (E : forall l,
               filter (fun o => orderDate o =? t) l
               = filter (fun o => - orderDate o =? - t) l).
    { intros l. apply filter_ext. intros o.
      destruct (Z.eqb_spec (orderDate o) t);
        destruct (Z.eqb_spec (- orderDate o) (- t)); try reflexivity; lia. }
    rewrite !E. apply sort_stable.
Qed.

(** ** The dashboard *)

Lemma today_bounds (tz now : Z) :
  Dashboard.today tz now <= now < Dashboard.today tz now + msPerDay.
Proof.
  unfold Dashboard.today, msPerDay.
  pose proof (Z.div_mod (now + tz) 86400000 ltac:(discriminate)) as Hdm.
  pose proof (Z.mod_pos_bound (now + tz) 86400000 ltac:(reflexivity)) as Hb.
  lia.
Qed.


(** X10: the dashboard and the analytics page agree: at the same clock reading,
    any window of a day or more admits every order the dashboard counts as
    today's, and a window that admits every order reports the dashboard's
    totals. *)
Theorem dashboard_agrees (fmt : Z -> string) (parse : string -> option Z)
  (tz now daysAgo : Z) (s : Snapshot) :
  let stats := Dashboard.fetchStats tz now s in
  let r := report fmt parse now daysAgo s in
  (1 <= daysAgo -> Dashboard.todayOrders stats <= totalOrders r)
  /\ (filteredOrders now daysAgo (orders s) = orders s ->
      totalOrders r = Dashboard.totalOrders stats
      /\ totalRevenue r = Dashboard.totalRevenue stats).
Proof.
  cbv zeta. unfold report. rewrite fetchAnalytics_run.
  cbn [fst totalOrders totalRevenue Dashboard.fetchStats
         Dashboard.todayOrders Dashboard.totalOrders Dashboard.totalRevenue].
  split.
  - intros Hd. apply inj_le. unfold filteredOrders.
    apply filter_length_le. intros order _ H.
    apply Z.leb_le in H. apply Z.leb_le.
    pose proof (today_bounds tz now). unfold cutoffDate, msPerDay in *. lia.
  - intros ->. split; reflexivity.
Qed.

(** ** The subcategories page *)

(** X11: the page shows one row per subcategory document, in the order read, and
    labels each with a non-empty category name: that of the first category
    with the row's [categoryId], or "Unknown" when there is none; this is
    the label the analytics page books the items of a product of that
    category under. *)
Theorem fetchData_labels (categoriesData : list Category.t)
  (docs : list SubcategoriesPage.Doc.t) :
  let rows := SubcategoriesPage.fetchData categoriesData docs in
  map SubcategoriesPage.Row.id rows = map SubcategoriesPage.Doc.id docs
  /\ (forall row, In row rows ->
        SubcategoriesPage.Row.categoryName row <> ""
        /\ (SubcategoriesPage.Row.categoryName row = "Unknown"
            \/ exists c,
                 In c categoriesData
                 /\ Category.id c = SubcategoriesPage.Row.categoryId row
                 /\ Category.name c = SubcategoriesPage.Row.categoryName row))
  /\ (forall row, In row rows ->
        (forall c, In c categoriesData ->
                   Category.id c <> SubcategoriesPage.Row.categoryId row) ->
        SubcategoriesPage.Row.categoryName row = "Unknown")
  /\ (forall s item,
        categoryName s item
        = option_map
            (fun p => SubcategoriesPage.categoryLabel (categories s)
                        (Product.categoryId p))
            (find (fun p => String.eqb (Product.id p) (Item.productId item))
               (products s))).
Proof.
  cbv zeta. unfold SubcategoriesPage.fetchData.
  split; [|split; [|split]].
  - rewrite map_map. reflexivity.
  - intros row Hrow. apply in_map_iff in Hrow as [d [<- _]].
    cbn [SubcategoriesPage.Row.categoryName SubcategoriesPage.Row.categoryId].
    split.
    + now apply or_string_nonempty.
    + unfold SubcategoriesPage.categoryLabel, JS.or_string.
      destruct (find _ categoriesData) as [c|] eqn:F; [|now left].
      apply find_some in F as [Hc E]. apply String.eqb_eq in E. simpl.
      destruct (String.eqb (Category.name c) ""); [now left|].
      right. now exists c.
  - intros row Hrow Hno. apply in_map_iff in Hrow as [d [<- _]].
    cbn [SubcategoriesPage.Row.categoryName SubcategoriesPage.Row.categoryId]
      in *.
    unfold SubcategoriesPage.categoryLabel.
    destruct (find _ categoriesData) as [c|] eqn:F; [|reflexivity].
    apply find_some in F as [Hc E]. apply String.eqb_eq in E.
    now destruct (Hno c Hc).
  - intros s item. unfold categoryName, SubcategoriesPage.categoryLabel.
    now destruct (find _ (products s)).
Qed.

(** ** The custom orders page *)

Section CustomOrders.

Import CustomOrdersPage.

Implicit Types (l : list CustomOrder.t) (i j st : string).



End CustomOrders.

(** ** The products page *)

Section Products.

Import ProductsPage.

Lemma includes_In (item : string) (array : list string) :
  existsb (String.eqb item) array = true <-> In item array.
Proof. apply existsb_eqb_In. Qed.

(** X14: a click on an option flips that option and leaves the others as they
    are. *)
Theorem toggleArrayItem_membership (array : list string) (item x : string) :
  In x (toggleArrayItem array item)
  <-> (x = item /\ ~ In item array) \/ (x <> item /\ In x array).
Proof.
  unfold toggleArrayItem.
  destruct (existsb (String.eqb item) array) eqn:E.
  - apply includes_In in E.
    rewrite filter_In, negb_true_iff, String.eqb_neq. intuition congruence.
  - assert (Hno : ~ In item array).
    { intros H. apply includes_In in H. congruence. }
    rewrite in_app_iff. simpl.
    destruct (String.eqb_spec x item) as [->|Hne]; intuition congruence.
Qed.

Lemma filter_absent (item : string) (array : list string) :
  ~ In item array ->
  filter (fun i => negb (String.eqb i item)) array = array.
Proof.
  induction array as [|x array IH]; intros H; simpl; [reflexivity|].
  destruct (String.eqb_spec x item) as [->|Hne]; simpl.
  - exfalso. apply H. now left.
  - f_equal. apply IH. intros Hin. apply H. now right.
Qed.

(** X15: two clicks on an option that was off leave the selection as it was; two
    clicks on one that was on move it to the end, once. *)
Theorem toggleArrayItem_twice (array : list string) (item : string) :
  (~ In item array ->
   toggleArrayItem (toggleArrayItem array item) item = array)
  /\ (In item array ->
      toggleArrayItem (toggleArrayItem array item) item
      = filter (fun i => negb (String.eqb i item)) array ++ [item]).
Proof.
  split; intros H.
  - unfold toggleArrayItem at 2.
    destruct (existsb (String.eqb item) array) eqn:E;
      [apply includes_In in E; contradiction|].
    unfold toggleArrayItem.
    assert (Hin : existsb (String.eqb item) (array ++ [item]) = true).
    { apply includes_In, in_or_app. right. now left. }
    rewrite Hin, filter_app. simpl. rewrite String.eqb_refl. simpl.
    rewrite app_nil_r. now apply filter_absent.
  - unfold toggleArrayItem at 2.
    apply includes_In in H. rewrite H. unfold toggleArrayItem.
    destruct (existsb _ (filter _ array)) eqn:E; [|reflexivity].
    apply includes_In, filter_In in E as [_ E].
    now rewrite String.eqb_refl in E.
Qed.

Lemma toggleArrayItem_NoDup (array : list string) (item : string) :
  NoDup array -> NoDup (toggleArrayItem array item).
Proof.
  intros Hnd. unfold toggleArrayItem.
  destruct (existsb (String.eqb item) array) eqn:E.
  - now apply NoDup_filter.
  - apply NoDup_rev in Hnd. rewrite <- (rev_involutive (array ++ [item])).
    apply NoDup_rev. rewrite rev_app_distr. simpl.
    constructor; [|assumption].
    rewrite <- in_rev. intros H. apply includes_In in H. congruence.
Qed.

Lemma filter_from_all {A} (f : A -> nat -> bool) (k : nat) (l : list A) :
  (forall x i, (k <= i)%nat -> f x i = true) -> filter_from f k l = l.
Proof.
  revert k. induction l as [|x l IH]; intros k H; simpl; [reflexivity|].
  rewrite H by lia. f_equal. apply IH. intros y i Hi. apply H. lia.
Qed.

Lemma filter_from_drop {A} (l : list A) (k t idx : nat) :
  t = (k + idx)%nat ->
  filter_from (fun _ i => negb (Nat.eqb i t)) k l
  = firstn idx l ++ skipn (S idx) l.
Proof.
  revert k idx. induction l as [|x l IH]; intros k idx Ht.
  - now destruct idx.
  - cbn [filter_from]. destruct idx as [|idx].
    + replace (Nat.eqb k t) with true
        by (symmetry; apply Nat.eqb_eq; lia).
      simpl. apply filter_from_all. intros y i Hi.
      apply negb_true_iff, Nat.eqb_neq. lia.
    + replace (Nat.eqb k t) with false
        by (symmetry; apply Nat.eqb_neq; lia).
      simpl. f_equal. apply IH. lia.
Qed.

(** X16: the cross on a preview removes the image at that position and no other:
    one image fewer for a position within the list, the same list for a
    position beyond it. *)
Theorem removeImage_at (images : list string) (idx : nat) :
  removeImage images idx = firstn idx images ++ skipn (S idx) images
  /\ ((idx < length images)%nat ->
      S (length (removeImage images idx)) = length images)
  /\ ((length images <= idx)%nat -> removeImage images idx = images).
Proof.
  assert (E : removeImage images idx
              = firstn idx images ++ skipn (S idx) images)
    by (apply filter_from_drop; reflexivity).
  split; [exact E|]. split.
  - intros Hlt. rewrite E, length_app, length_firstn, length_skipn. lia.
  - intros Hle. rewrite E, firstn_all2, skipn_all2 by lia.
    apply app_nil_r.
Qed.

Context {File Num : Type}.
Variable env : Env File Num.

(** X17: whatever is clicked, no size and no colour is listed twice in the form,
    as long as the products opened for editing list none twice. *)
Theorem options_never_twice (st : State File Num)
  (actions : list (Action File Num)) :
  NoDup (Form.sizes (formData st)) ->
  NoDup (Form.colors (formData st)) ->
  (forall p, In (Edit p) actions ->
             NoDup (Doc.sizes p) /\ NoDup (Doc.colors p)) ->
  NoDup (Form.sizes (formData (run env st actions)))
  /\ NoDup (Form.colors (formData (run env st actions))).
Proof.
  unfold run. revert st.
  induction actions as [|a actions IH]; intros st Hs Hc Hedit;
    [now split|].
  cbn [fold_left]. apply IH.
  - destruct a; cbn; try assumption.
    + now apply toggleArrayItem_NoDup.
    + apply (Hedit product). now left.
    + constructor.
  - destruct a; cbn; try assumption.
    + now apply toggleArrayItem_NoDup.
    + apply (Hedit product). now left.
    + constructor.
  - intros p Hp. apply Hedit. now right.
Qed.

Lemma run_dialog (st : State File Num) (actions : list (Action File Num)) :
  forallb keepsDialog actions = true ->
  editingProduct (run env st actions) = editingProduct st
  /\ imageFiles (run env st actions)
     = fold_left (fun files a => match a with
                                 | Drop acceptedFiles => files ++ acceptedFiles
                                 | Close => []
                                 | _ => files
                                 end) actions (imageFiles st).
Proof.
  unfold run. revert st.
  induction actions as [|a actions IH]; intros st Hk; [now split|].
  cbn [forallb] in Hk. apply andb_prop in Hk as [Ha Hk].
  cbn [fold_left]. destruct (IH (step env st a) Hk) as [He Hf].
  rewrite He, Hf. destruct a; try discriminate; split; reflexivity.
Qed.

Lemma run_images (st : State File Num) (actions : list (Action File Num)) :
  forallb keepsDialog actions = true ->
  forallb (fun a => negb (isDrop a)) actions = true ->
  Form.images (formData (run env st actions))
  = fold_left removeImage (removals actions) (Form.images (formData st)).
Proof.
  unfold run, removals. revert st.
  induction actions as [|a actions IH]; intros st Hk Hd; [reflexivity|].
  cbn [forallb] in Hk, Hd.
  apply andb_prop in Hk as [Ha Hk]. apply andb_prop in Hd as [Hda Hd].
  cbn [fold_left flat_map]. rewrite fold_left_app, IH by assumption.
  f_equal. destruct a; try discriminate; try reflexivity.
  destruct acceptedFiles; [|discriminate]. cbn. apply app_nil_r.
Qed.

(** X18: once files were dropped, a valid form is saved with the images of the
    product opened for editing (none for a new product) followed by the
    uploads of every dropped file, in the order dropped: the previews
    removed in the form, old or new, are saved all the same. *)
Theorem submit_uploads_every_dropped_file (now created : Z)
  (st0 : State File Num) (actions : list (Action File Num))
  (uploads : list string) :
  let st := run env st0 actions in
  imageFiles st0 = [] ->
  forallb keepsDialog actions = true ->
  droppedFiles actions <> [] ->
  uploadAll env (droppedFiles actions) = Some uploads ->
  Form.name (formData st) <> "" ->
  Form.price (formData st) <> "" ->
  Form.categoryId (formData st) <> "" ->
  exists productData,
    handleSubmit env now created st
    = match editingProduct st0 with
      | Some product => Update (Doc.id product) productData
      | None => Add productData created
      end
    /\ Data.images productData
       = match editingProduct st0 with
         | Some product => Doc.images product
         | None => []
         end ++ uploads.
Proof.
  cbv zeta. intros Hfiles Hk Hdrop Hup Hn Hp Hc.
  destruct (run_dialog st0 actions Hk) as [He Hf].
  rewrite Hfiles in Hf. fold (droppedFiles actions) in Hf.
  unfold handleSubmit.
  apply String.eqb_neq in Hn, Hp, Hc. rewrite Hn, Hp, Hc. cbn [orb].
  rewrite Hf, Hup, He.
  destruct (droppedFiles actions) as [|f fs]; [contradiction|].
  destruct (editingProduct st0) as [product|];
    eexists; split; reflexivity.
Qed.

(** X19: with no file dropped, a valid form opened on a product is saved with
    the images of that product less the ones removed in the form. *)
Theorem submit_without_files (now created : Z) (st0 : State File Num)
  (product : Doc.t Num) (actions : list (Action File Num)) :
  let st := run env (step env st0 (Edit product)) actions in
  imageFiles st0 = [] ->
  forallb keepsDialog actions = true ->
  forallb (fun a => negb (isDrop a)) actions = true ->
  Form.name (formData st) <> "" ->
  Form.price (formData st) <> "" ->
  Form.categoryId (formData st) <> "" ->
  exists productData,
    handleSubmit env now created st = Update (Doc.id product) productData
    /\ Data.images productData
       = fold_left removeImage (removals actions) (Doc.images product).
Proof.
  cbv zeta. intros Hfiles Hk Hd Hn Hp Hc.
  destruct (run_dialog (step env st0 (Edit product)) actions Hk) as [He Hf].
  pose proof (run_images (step env st0 (Edit product)) actions Hk Hd) as Hi.
  change (editingProduct (step env st0 (Edit product)))
    with (Some product) in He.
  change (imageFiles (step env st0 (Edit product)))
    with (imageFiles st0) in Hf.
  change (Form.images (formData (step env st0 (Edit product))))
    with (Doc.images product) in Hi.
  rewrite Hfiles in Hf.
  assert (Hnone : imageFiles (run env (step env st0 (Edit product)) actions)
                  = []).
  { rewrite Hf. clear -Hd. induction actions as [|a actions IH];
      [reflexivity|].
    cbn [forallb] in Hd. apply andb_prop in Hd as [Ha Hd].
    cbn [fold_left]. destruct a; try (now apply IH).
    destruct acceptedFiles; [now apply IH | discriminate]. }
  unfold handleSubmit.
  apply String.eqb_neq in Hn, Hp, Hc. rewrite Hn, Hp, Hc. cbn [orb].
  rewrite Hnone, He. eexists. split; [reflexivity|]. exact Hi.
Qed.

End Products.

(** ** The pages on the sample sessions *)

Lemma window_monotone_witness :
  7 <= 30
  /\ totalOrders (report (Platform.enUS Sample.tz) (Platform.parse Sample.tz)
                    Sample.now 7 Sample.scenarioB)
     <= totalOrders (report (Platform.enUS Sample.tz) (Platform.parse Sample.tz)
                       Sample.now 30 Sample.scenarioB).
Proof.
  assert (H : 7 <= 30) by lia. split; [exact H|].
  exact (proj2 (window_monotone (Platform.enUS Sample.tz)
                  (Platform.parse Sample.tz) Sample.now 7 30
                  Sample.scenarioB H)).
Defined.

Lemma empty_window_report_witness :
  report (Platform.enUS Sample.tz) (Platform.parse Sample.tz) Sample.now 30
    (mkSnapshot [] Sample.catalogue Sample.shelves)
  = mkAnalyticsData 0 0 (Some 0%Q) [] [] [] [].
Proof. apply empty_window_report. reflexivity. Defined.



Lemma options_never_twice_witness :
  NoDup (ProductsPage.Form.sizes
           (ProductsPage.formData
              (ProductsPage.run SamplePages.env SamplePages.closed
                 [ProductsPage.ToggleSize "M"; ProductsPage.ToggleSize "L";
                  ProductsPage.ToggleSize "M"]))).
Proof.
  apply (options_never_twice SamplePages.env SamplePages.closed).
  - constructor.
  - constructor.
  - intros p Hin. simpl in Hin. decompose [or] Hin; try contradiction;
      discriminate.
Defined.

Lemma submit_uploads_every_dropped_file_witness :
  let st0 := ProductsPage.step SamplePages.env SamplePages.closed
               (ProductsPage.Edit SamplePages.hoodie) in
  exists productData,
    ProductsPage.handleSubmit SamplePages.env 0 0
      (ProductsPage.run SamplePages.env st0 SamplePages.retouch)
    = match ProductsPage.editingProduct st0 with
      | Some product =>
          ProductsPage.Update (ProductsPage.Doc.id product) productData
      | None => ProductsPage.Add productData 0
      end
    /\ ProductsPage.Data.images productData
       = match ProductsPage.editingProduct st0 with
         | Some product => ProductsPage.Doc.images product
         | None => []
         end ++ ["https://cdn/side.png"; "https://cdn/tag.png"].
Proof.
  cbv zeta.
  apply (submit_uploads_every_dropped_file SamplePages.env 0 0
           (ProductsPage.step SamplePages.env SamplePages.closed
              (ProductsPage.Edit SamplePages.hoodie))
           SamplePages.retouch);
    vm_compute; try reflexivity; discriminate.
Defined.

Lemma submit_without_files_witness :
  exists productData,
    ProductsPage.handleSubmit SamplePages.env 0 0
      (ProductsPage.run SamplePages.env
         (ProductsPage.step SamplePages.env SamplePages.closed
            (ProductsPage.Edit SamplePages.hoodie))
         SamplePages.prune)
    = ProductsPage.Update (ProductsPage.Doc.id SamplePages.hoodie) productData
    /\ ProductsPage.Data.images productData
       = fold_left ProductsPage.removeImage
           (ProductsPage.removals SamplePages.prune)
           (ProductsPage.Doc.images SamplePages.hoodie).
Proof.
  apply (submit_without_files SamplePages.env 0 0 SamplePages.closed
           SamplePages.hoodie SamplePages.prune);
    vm_compute; try reflexivity; discriminate.
Defined.

(** The retouched hoodie keeps its two images and gains the two uploads,
    although all four previews were removed but one. *)
Example retouched_hoodie :
  ProductsPage.Form.images
    (ProductsPage.formData
       (ProductsPage.run SamplePages.env
          (ProductsPage.step SamplePages.env SamplePages.closed
             (ProductsPage.Edit SamplePages.hoodie))
          SamplePages.retouch))
  = ["https://cdn/back.png"]
  /\ exists productData,
       ProductsPage.handleSubmit SamplePages.env 0 0
         (ProductsPage.run SamplePages.env
            (ProductsPage.step SamplePages.env SamplePages.closed
               (ProductsPage.Edit SamplePages.hoodie))
            SamplePages.retouch)
       = ProductsPage.Update "p7" productData
       /\ ProductsPage.Data.images productData
          = ["https://cdn/front.png"; "https://cdn/back.png";
             "https://cdn/side.png"; "https://cdn/tag.png"]
       /\ ProductsPage.Data.sizes productData = ["L"; "XL"].
Proof.
  split; [vm_compute; reflexivity|].
  eexists. split; [vm_compute; reflexivity|]. split; reflexivity.
Qed.
